(** * The admin dashboard script, [static/js/dashboard.js]

    A shallow embedding of the browser script: the values it receives from
    the backend, the part of the page it reads and writes, its event
    handlers as transitions of one state, and the properties of the
    specification proved (or refuted) on them.

    The script is event driven.  Every handler runs to its first [await]
    in one piece, and what follows the [await] runs in one piece when the
    request settles; the embedding keeps the list of requests in flight
    and settles them one at a time, in any order. *)

From Stdlib Require Import ZArith QArith Qround Qabs String Ascii List Lia Bool.
From Stdlib Require Import DecimalString.
Import ListNotations.

Local Open Scope string_scope.

(** ** The host language *)

Module JS.

(** A property read from a parsed JSON object: absent ([undefined]),
    [null], or a value of the expected type. *)
Inductive maybe (A : Type) : Type :=
| undefined : maybe A
| null : maybe A
| just : A -> maybe A.

Arguments undefined {A}.
Arguments null {A}.
Arguments just {A} _.

(** A finite JavaScript number, by its exact value. *)
Definition number : Type := Q.

(** ToBoolean. *)
Definition truthy_string (s : string) : bool :=
  match s with
  | EmptyString => false
  | String _ _ => true
  end.

Definition truthy_number (x : number) : bool := negb (Qeq_bool x 0%Q).

Definition truthy_int (n : Z) : bool := negb (n =? 0)%Z.

Definition truthy_opt_string (t : option string) : bool :=
  match t with
  | Some s => truthy_string s
  | None => false
  end.

Definition truthy_maybe {A : Type} (truthy : A -> bool) (v : maybe A) : bool :=
  match v with
  | just a => truthy a
  | _ => false
  end.

(** [v || d] on a string-valued property. *)
Definition or_else (v : maybe string) (d : string) : string :=
  match v with
  | just s => if truthy_string s then s else d
  | _ => d
  end.

(** The double-quote character and a quoted attribute value. *)
Definition dq : string := String (ascii_of_nat 34) EmptyString.
Definition quoted (s : string) : string := dq ++ s ++ dq.

(** Line feed, as it occurs inside the template literal. *)
Definition nl : string := String (ascii_of_nat 10) EmptyString.

Fixpoint spaces (n : nat) : string :=
  match n with
  | O => EmptyString
  | S k => String " " (spaces k)
  end.

Fixpoint zeros (n : nat) : string :=
  match n with
  | O => EmptyString
  | S k => String "0" (zeros k)
  end.

(** The decimal digits of a natural number, no leading zero (one digit
    for 0). *)
Definition decimal (n : Z) : string :=
  NilEmpty.string_of_uint (N.to_uint (Z.to_N n)).

(** *** Number.prototype.toFixed *)

Definition is_negative (x : number) : bool := negb (Qle_bool 0%Q x).

Definition ten_pow (e : Z) : Q := Qpower 10 e.

(** The integer [n] for which [n / 10^f - x] is closest to zero, the
    larger one of two. *)
Definition nearest_scaled (f : nat) (x : Q) : Z :=
  Qfloor (x * ten_pow (Z.of_nat f) + (1 # 2))%Q.

(** The digits of [n], padded to at least [f + 1] of them, with the
    decimal point before the last [f]. *)
Definition place_point (f : nat) (n : Z) : string :=
  let m := decimal n in
  let m := if (String.length m <=? f)%nat
           then zeros (f + 1 - String.length m) ++ m else m in
  let k := String.length m in
  match f with
  | O => m
  | S _ => substring 0 (k - f) m ++ "." ++ substring (k - f) f m
  end.

(** *** Number::toString, radix 10 *)

(** [floor (log2 q)] for [q > 0]. *)
Definition floor_log2 (q : Q) : Z :=
  let g := (Z.log2 (Qnum q) - Z.log2 (Zpos (Qden q)))%Z in
  if Qle_bool (Qpower 2 g) q then g else (g - 1)%Z.

Definition round_half_even (q : Q) : Z :=
  let f := Qfloor q in
  match Qcompare (q - inject_Z f)%Q (1 # 2)%Q with
  | Lt => f
  | Gt => (f + 1)%Z
  | Eq => if Z.even f then f else (f + 1)%Z
  end.

(** The double nearest to [q > 0] (ties to even), [None] on overflow. *)
Definition to_double (q : Q) : option Q :=
  let e := Z.max (floor_log2 q) (-1022) in
  let ulp := Qpower 2 (e - 52) in
  let r := (inject_Z (round_half_even (q / ulp)) * ulp)%Q in
  if Qle_bool (Qpower 2 1024) r then None else Some (Qred r).

Definition rounds_to (x : Q) (c : Q) : bool :=
  match to_double c with
  | Some d => Qeq_bool d x
  | None => false
  end.

(** The [n] with [10^(n-1) <= x < 10^n], for [x > 0]. *)
Definition decimal_exponent (x : Q) : Z :=
  let g := Qfloor (inject_Z (floor_log2 x) * (30103 # 100000))%Q in
  let fits n := negb (Qle_bool (ten_pow n) x) in
  if fits (g - 1)%Z then (g - 1)%Z
  else if fits g then g
  else if fits (g + 1)%Z then (g + 1)%Z
  else (g + 2)%Z.

(** With [k] significant digits: the integer [s] such that [s * 10^(n-k)]
    rounds to [x], the closest to [x] when there are two (the even one on
    a tie). *)
Definition candidate (x : Q) (n : Z) (k : Z) : option Z :=
  let scale := ten_pow (n - k) in
  let lo := Qfloor (x / scale)%Q in
  let hi := (lo + 1)%Z in
  let vlo := (inject_Z lo * scale)%Q in
  let vhi := (inject_Z hi * scale)%Q in
  match rounds_to x vlo, rounds_to x vhi with
  | false, false => None
  | true, false => Some lo
  | false, true => Some hi
  | true, true =>
      match Qcompare (x - vlo)%Q (vhi - x)%Q with
      | Lt => Some lo
      | Gt => Some hi
      | Eq => if Z.even lo then Some lo else Some hi
      end
  end.

(** The least [k] (at most [k + fuel]) with a candidate. *)
Fixpoint shortest (fuel : nat) (x : Q) (n : Z) (k : Z) : Z * Z :=
  match candidate x n k with
  | Some s => (s, k)
  | None =>
      match fuel with
      | O => (Qfloor (x / ten_pow (n - k))%Q, k)
      | S fuel' => shortest fuel' x n (k + 1)%Z
      end
  end.

Fixpoint strip_zeros_rev (s : list ascii) : list ascii :=
  match s with
  | "0"%char :: t => strip_zeros_rev t
  | _ => s
  end.

Definition strip_trailing_zeros (s : string) : string :=
  string_of_list_ascii (rev (strip_zeros_rev (rev (list_ascii_of_string s)))).

Definition exponent_part (e : Z) : string :=
  (if (0 <=? e)%Z then "+" else "-") ++ decimal (Z.abs e).

(** The digits [ds] (there are [k] of them) of a number
    [0.ds * 10^n], laid out as Number::toString does. *)
Definition layout (ds : string) (n : Z) : string :=
  let k := Z.of_nat (String.length ds) in
  if ((k <=? n) && (n <=? 21))%Z%bool then
    ds ++ zeros (Z.to_nat (n - k))
  else if ((0 <? n) && (n <=? 21))%Z%bool then
    substring 0 (Z.to_nat n) ds ++ "." ++
    substring (Z.to_nat n) (Z.to_nat (k - n)) ds
  else if ((-6 <? n) && (n <=? 0))%Z%bool then
    "0." ++ zeros (Z.to_nat (- n)) ++ ds
  else if (k =? 1)%Z then
    ds ++ "e" ++ exponent_part (n - 1)
  else
    substring 0 1 ds ++ "." ++ substring 1 (Z.to_nat (k - 1)) ds ++
    "e" ++ exponent_part (n - 1).

Definition positive_toString (x : Q) : string :=
  match to_double x with
  | None => "Infinity"
  | Some d =>
      let n := decimal_exponent d in
      let '(s, k) := shortest 16 d n 1 in
      let all := decimal s in
      layout (strip_trailing_zeros all)
             (Z.of_nat (String.length all) + (n - k))
  end.

Definition Number_toString (x : number) : string :=
  if Qeq_bool x 0%Q then "0"
  else if is_negative x then "-" ++ positive_toString (- x)%Q
  else positive_toString x.

(** [x.toFixed(f)]: below 10^21 the digits of the nearest multiple of
    [10^-f]; from 10^21 on, what ToString gives. *)
Definition toFixed (f : nat) (x : number) : string :=
  let sign := if is_negative x then "-" else EmptyString in
  let x := if is_negative x then (- x)%Q else x in
  if Qle_bool (ten_pow 21) x then sign ++ Number_toString x
  else sign ++ place_point f (nearest_scaled f x).

(** ToString on the values a template literal or a DOM setter meets. *)
Definition int_toString (n : Z) : string := Number_toString (inject_Z n).

Definition maybe_toString (v : maybe string) : string :=
  match v with
  | undefined => "undefined"
  | null => "null"
  | just s => s
  end.

Definition opt_toString (t : option string) : string :=
  match t with
  | None => "null"
  | Some s => s
  end.

(** A [DOMString] attribute marked LegacyNullToEmptyString, as the
    [value] of an input is.  Inputs are taken as text inputs: what is
    assigned is what is read back. *)
Definition to_value (v : maybe string) : string :=
  match v with
  | undefined => "undefined"
  | null => EmptyString
  | just s => s
  end.

End JS.

Import JS.

(** ** What the backend sends and receives *)

(** A product as the list endpoint returns it.  [description], [price]
    and [image] are optional. *)
Record Product : Type := {
  p_id : Z;
  p_name : string;
  p_description : maybe string;
  p_price : maybe number;
  p_image : maybe string
}.

(** The site configuration as [GET /api/config] returns it. *)
Record SiteConfig : Type := {
  primary_color : maybe string;
  background_color : maybe string;
  product_bg_color : maybe string;
  whatsapp_number : maybe string
}.

(** What [response.json()] yields: a rejection when the body is not
    JSON, else one of the shapes the endpoints answer with. *)
Inductive Body : Type :=
| NoJson : Body
| JsonProducts : list Product -> Body
| JsonError : maybe string -> Body      (* an object, with its [detail] *)
| JsonConfig : SiteConfig -> Body.

(** How a [fetch] settles.  A handler awaits the response and then its
    body; it reads and writes nothing in between and acts at one of the
    two points only, so both are settled together. *)
Inductive Outcome : Type :=
| NetworkError : Outcome
| Response : Z -> Body -> Outcome.

(** [response.ok] *)
Definition ok (status : Z) : bool := ((200 <=? status) && (status <=? 299))%Z.

(** A file picked in the image input, by name. *)
Definition File : Type := string.

Inductive FormValue : Type :=
| Text : string -> FormValue
| Blob : File -> FormValue.

(** The four fields the configuration form sends. *)
Record ConfigForm : Type := {
  primaryColor : string;
  backgroundColor : string;
  productBgColor : string;
  whatsappNumber : string
}.

Inductive Payload : Type :=
| NoPayload : Payload
| FormData : list (string * FormValue) -> Payload
| JsonBody : ConfigForm -> Payload.

Record Request : Type := {
  method : string;
  url : string;
  authorization : option string;
  contentType : option string;
  payload : Payload
}.

(** What the script does to the world outside the page. *)
Inductive Effect : Type :=
| Navigate : string -> Effect           (* window.location.href = ... *)
| Fetch : Request -> Effect.

(** ** The page *)

Inductive Tab : Type := TabProducts | TabConfig.

(** The controls of [productForm]. *)
Record ProductForm : Type := {
  productName : string;
  productDescription : string;
  productPrice : string;
  productImage : option File
}.

(** The properties of the document the script reads or writes. *)
Record Dom : Type := {
  activeTabs : list Tab;          (* tabs whose button and panel are active *)
  modalActive : bool;             (* productModal carries class active *)
  modalTitle : string;
  productId : string;
  form : ProductForm;
  imageRequired : bool;           (* productImage.required *)
  previewSrc : string;
  previewDisplay : string;        (* imagePreview.style.display *)
  productsList : string;          (* productsList.innerHTML *)
  configForm : ConfigForm;
  messageText : string;           (* message.textContent *)
  messageClass : string           (* message.className *)
}.

Definition set_activeTabs (v : list Tab) (d : Dom) : Dom :=
  {| activeTabs := v; modalActive := modalActive d;
     modalTitle := modalTitle d; productId := productId d; form := form d;
     imageRequired := imageRequired d; previewSrc := previewSrc d;
     previewDisplay := previewDisplay d; productsList := productsList d;
     configForm := configForm d; messageText := messageText d;
     messageClass := messageClass d |}.

Definition set_modalActive (v : bool) (d : Dom) : Dom :=
  {| activeTabs := activeTabs d; modalActive := v;
     modalTitle := modalTitle d; productId := productId d; form := form d;
     imageRequired := imageRequired d; previewSrc := previewSrc d;
     previewDisplay := previewDisplay d; productsList := productsList d;
     configForm := configForm d; messageText := messageText d;
     messageClass := messageClass d |}.

Definition set_modalTitle (v : string) (d : Dom) : Dom :=
  {| activeTabs := activeTabs d; modalActive := modalActive d;
     modalTitle := v; productId := productId d; form := form d;
     imageRequired := imageRequired d; previewSrc := previewSrc d;
     previewDisplay := previewDisplay d; productsList := productsList d;
     configForm := configForm d; messageText := messageText d;
     messageClass := messageClass d |}.

Definition set_productId (v : string) (d : Dom) : Dom :=
  {| activeTabs := activeTabs d; modalActive := modalActive d;
     modalTitle := modalTitle d; productId := v; form := form d;
     imageRequired := imageRequired d; previewSrc := previewSrc d;
     previewDisplay := previewDisplay d; productsList := productsList d;
     configForm := configForm d; messageText := messageText d;
     messageClass := messageClass d |}.

Definition set_form (v : ProductForm) (d : Dom) : Dom :=
  {| activeTabs := activeTabs d; modalActive := modalActive d;
     modalTitle := modalTitle d; productId := productId d; form := v;
     imageRequired := imageRequired d; previewSrc := previewSrc d;
     previewDisplay := previewDisplay d; productsList := productsList d;
     configForm := configForm d; messageText := messageText d;
     messageClass := messageClass d |}.

Definition set_imageRequired (v : bool) (d : Dom) : Dom :=
  {| activeTabs := activeTabs d; modalActive := modalActive d;
     modalTitle := modalTitle d; productId := productId d; form := form d;
     imageRequired := v; previewSrc := previewSrc d;
     previewDisplay := previewDisplay d; productsList := productsList d;
     configForm := configForm d; messageText := messageText d;
     messageClass := messageClass d |}.

Definition set_previewSrc (v : string) (d : Dom) : Dom :=
  {| activeTabs := activeTabs d; modalActive := modalActive d;
     modalTitle := modalTitle d; productId := productId d; form := form d;
     imageRequired := imageRequired d; previewSrc := v;
     previewDisplay := previewDisplay d; productsList := productsList d;
     configForm := configForm d; messageText := messageText d;
     messageClass := messageClass d |}.

Definition set_previewDisplay (v : string) (d : Dom) : Dom :=
  {| activeTabs := activeTabs d; modalActive := modalActive d;
     modalTitle := modalTitle d; productId := productId d; form := form d;
     imageRequired := imageRequired d; previewSrc := previewSrc d;
     previewDisplay := v; productsList := productsList d;
     configForm := configForm d; messageText := messageText d;
     messageClass := messageClass d |}.

Definition set_productsList (v : string) (d : Dom) : Dom :=
  {| activeTabs := activeTabs d; modalActive := modalActive d;
     modalTitle := modalTitle d; productId := productId d; form := form d;
     imageRequired := imageRequired d; previewSrc := previewSrc d;
     previewDisplay := previewDisplay d; productsList := v;
     configForm := configForm d; messageText := messageText d;
     messageClass := messageClass d |}.

Definition set_configForm (v : ConfigForm) (d : Dom) : Dom :=
  {| activeTabs := activeTabs d; modalActive := modalActive d;
     modalTitle := modalTitle d; productId := productId d; form := form d;
     imageRequired := imageRequired d; previewSrc := previewSrc d;
     previewDisplay := previewDisplay d; productsList := productsList d;
     configForm := v; messageText := messageText d;
     messageClass := messageClass d |}.

Definition set_messageText (v : string) (d : Dom) : Dom :=
  {| activeTabs := activeTabs d; modalActive := modalActive d;
     modalTitle := modalTitle d; productId := productId d; form := form d;
     imageRequired := imageRequired d; previewSrc := previewSrc d;
     previewDisplay := previewDisplay d; productsList := productsList d;
     configForm := configForm d; messageText := v;
     messageClass := messageClass d |}.

Definition set_messageClass (v : string) (d : Dom) : Dom :=
  {| activeTabs := activeTabs d; modalActive := modalActive d;
     modalTitle := modalTitle d; productId := productId d; form := form d;
     imageRequired := imageRequired d; previewSrc := previewSrc d;
     previewDisplay := previewDisplay d; productsList := productsList d;
     configForm := configForm d; messageText := messageText d;
     messageClass := v |}.

(** ** The state of the running script *)

(** A request in flight, by the code that waits for it. *)
Inductive Pending : Type :=
| PendLoadProducts : Pending
| PendSave : Pending
| PendEdit : Z -> Pending
| PendDelete : Pending
| PendLoadConfig : Pending
| PendSaveConfig : Pending.

Record State : Type := {
  dom : Dom;
  formDefaults : ProductForm;     (* what productForm.reset() restores *)
  token : option string;          (* localStorage item token *)
  authHeaders : string;            (* authHeaderss.Authorization *)
  currentEditId : option Z;
  now : N;                        (* milliseconds since the script ran *)
  timers : list N;                (* when each pending timeout is due *)
  pending : list Pending;
  reading : list File;            (* FileReaders in flight *)
  effects : list Effect           (* latest first *)
}.

Definition with_dom (f : Dom -> Dom) (s : State) : State :=
  {| dom := f (dom s); formDefaults := formDefaults s; token := token s;
     authHeaders := authHeaders s; currentEditId := currentEditId s;
     now := now s; timers := timers s; pending := pending s;
     reading := reading s; effects := effects s |}.

Definition set_token (v : option string) (s : State) : State :=
  {| dom := dom s; formDefaults := formDefaults s; token := v;
     authHeaders := authHeaders s; currentEditId := currentEditId s;
     now := now s; timers := timers s; pending := pending s;
     reading := reading s; effects := effects s |}.

Definition set_currentEditId (v : option Z) (s : State) : State :=
  {| dom := dom s; formDefaults := formDefaults s; token := token s;
     authHeaders := authHeaders s; currentEditId := v;
     now := now s; timers := timers s; pending := pending s;
     reading := reading s; effects := effects s |}.

Definition set_now (v : N) (s : State) : State :=
  {| dom := dom s; formDefaults := formDefaults s; token := token s;
     authHeaders := authHeaders s; currentEditId := currentEditId s;
     now := v; timers := timers s; pending := pending s;
     reading := reading s; effects := effects s |}.

Definition set_timers (v : list N) (s : State) : State :=
  {| dom := dom s; formDefaults := formDefaults s; token := token s;
     authHeaders := authHeaders s; currentEditId := currentEditId s;
     now := now s; timers := v; pending := pending s;
     reading := reading s; effects := effects s |}.

Definition set_pending (v : list Pending) (s : State) : State :=
  {| dom := dom s; formDefaults := formDefaults s; token := token s;
     authHeaders := authHeaders s; currentEditId := currentEditId s;
     now := now s; timers := timers s; pending := v;
     reading := reading s; effects := effects s |}.

Definition set_reading (v : list File) (s : State) : State :=
  {| dom := dom s; formDefaults := formDefaults s; token := token s;
     authHeaders := authHeaders s; currentEditId := currentEditId s;
     now := now s; timers := timers s; pending := pending s;
     reading := v; effects := effects s |}.

Definition add_effect (e : Effect) (s : State) : State :=
  {| dom := dom s; formDefaults := formDefaults s; token := token s;
     authHeaders := authHeaders s; currentEditId := currentEditId s;
     now := now s; timers := timers s; pending := pending s;
     reading := reading s; effects := e :: effects s |}.

(** The effects in the order they happened. *)
Definition trace (s : State) : list Effect := rev (effects s).

(** ** The script *)

(** *** Notifications *)

(** [showMessage(text, type)]: the text and the class are set at once,
    and a timeout is left behind that is due 4000 ms later. *)
Definition showMessage (text type : string) (s : State) : State :=
  let s := with_dom (set_messageText text) s in
  let s := with_dom (set_messageClass ("message " ++ type)) s in
  set_timers (timers s ++ [(now s + 4000)%N]) s.

(** The callback of such a timeout. *)
Definition clearMessage (s : State) : State :=
  with_dom (set_messageClass "message") s.

(** *** Requests *)

(** [fetch(...)] followed by [await]: the request leaves, and the rest
    of the handler waits for it. *)
Definition fetch (r : Request) (k : Pending) (s : State) : State :=
  set_pending (pending s ++ [k]) (add_effect (Fetch r) s).

Definition redirect (to : string) (s : State) : State :=
  add_effect (Navigate to) s.

Definition listRequest (s : State) : Request :=
  {| method := "GET"; url := "/api/products";
     authorization := Some (authHeaders s); contentType := None;
     payload := NoPayload |}.

(** *** The product list *)

Definition loadProducts (s : State) : State :=
  fetch (listRequest s) PendLoadProducts s.

Definition line (indent : nat) (text : string) : string :=
  spaces indent ++ text ++ nl.

(** The interpolation that shows the description, when it is truthy. *)
Definition descriptionLine (p : Product) : string :=
  match p_description p with
  | just d => if truthy_string d then "<p>" ++ d ++ "</p>" else EmptyString
  | _ => EmptyString
  end.

(** The interpolation that shows the price, when it is truthy. *)
Definition priceLine (p : Product) : string :=
  match p_price p with
  | just x =>
      if truthy_number x
      then "<p><strong>$" ++ toFixed 2 x ++ "</strong></p>"
      else EmptyString
  | _ => EmptyString
  end.

(** The card of one product, as the template literal spells it. *)
Definition productCard (p : Product) : string :=
  nl ++
  line 12 ("<div class=" ++ quoted "product-item" ++ ">") ++
  line 16 ("<img src=" ++
           quoted ("data:image/jpeg;base64," ++ maybe_toString (p_image p)) ++
           " alt=" ++ quoted (p_name p) ++ ">") ++
  line 16 ("<div class=" ++ quoted "product-item-info" ++ ">") ++
  line 20 ("<h4>" ++ p_name p ++ "</h4>") ++
  line 20 (descriptionLine p) ++
  line 20 (priceLine p) ++
  line 16 "</div>" ++
  line 16 ("<div class=" ++ quoted "product-item-actions" ++ ">") ++
  line 20 ("<button class=" ++ quoted "btn-edit" ++ " onclick=" ++
           quoted ("editProduct(" ++ int_toString (p_id p) ++ ")") ++
           ">Editar</button>") ++
  line 20 ("<button class=" ++ quoted "btn-delete" ++ " onclick=" ++
           quoted ("deleteProduct(" ++ int_toString (p_id p) ++ ")") ++
           ">Eliminar</button>") ++
  line 16 "</div>" ++
  line 12 "</div>" ++
  spaces 8.

Definition noProducts : string :=
  "<p class=" ++ quoted "no-products" ++
  ">No hay productos. Agrega el primero.</p>".

(** [products.map(...).join('')] *)
Definition renderProducts (products : list Product) : string :=
  String.concat EmptyString (map productCard products).

(** [loadProducts] once its request has settled.  A body that is not
    JSON, or not an array, ends in the [catch]. *)
Definition loadProducts_settled (o : Outcome) (s : State) : State :=
  match o with
  | NetworkError => showMessage "Error al cargar productos" "error" s
  | Response status body =>
      if (status =? 401)%Z then redirect "/login" (set_token None s)
      else
        match body with
        | JsonProducts [] => with_dom (set_productsList noProducts) s
        | JsonProducts products =>
            with_dom (set_productsList (renderProducts products)) s
        | _ => showMessage "Error al cargar productos" "error" s
        end
  end.

(** *** The product dialog *)

Definition closeProductModal (s : State) : State :=
  with_dom (set_modalActive false) s.

(** [productForm.reset()] *)
Definition reset (defaults : ProductForm) : ProductForm :=
  {| productName := productName defaults;
     productDescription := productDescription defaults;
     productPrice := productPrice defaults;
     productImage := None |}.

(** [addBtn.onclick] *)
Definition addBtn_onclick (s : State) : State :=
  let s := set_currentEditId None s in
  let s := with_dom (set_modalTitle "Agregar Producto") s in
  let s := with_dom (set_form (reset (formDefaults s))) s in
  let s := with_dom (set_productId EmptyString) s in
  let s := with_dom (set_previewDisplay "none") s in
  let s := with_dom (set_imageRequired true) s in
  with_dom (set_modalActive true) s.

(** [window.onclick]; [onModal] says whether the click hit the modal
    element itself. *)
Definition window_onclick (onModal : bool) (s : State) : State :=
  if onModal then closeProductModal s else s.

(** The image input changes: the browser records the chosen file, the
    handler starts reading it for the preview. *)
Definition productImage_change (file : option File) (s : State) : State :=
  let f := form (dom s) in
  let s := with_dom (set_form {| productName := productName f;
                                 productDescription := productDescription f;
                                 productPrice := productPrice f;
                                 productImage := file |}) s in
  match file with
  | Some x => set_reading (reading s ++ [x]) s
  | None => s
  end.

(** [reader.onload] *)
Definition reader_onload (result : string) (s : State) : State :=
  let s := with_dom (set_previewSrc result) s in
  with_dom (set_previewDisplay "block") s.

(** *** Saving a product *)

Definition productFormData (f : ProductForm) : list (string * FormValue) :=
  [("name", Text (productName f));
   ("description", Text (productDescription f));
   ("price", Text (if truthy_string (productPrice f)
                   then productPrice f else EmptyString))] ++
  match productImage f with
  | Some file => [("image", Blob file)]
  | None => []
  end.

(** Where the form goes: [if (currentEditId)] is a truthiness test, so
    an edit id of 0 counts as none. *)
Definition saveTarget (editId : option Z) : string * string :=
  match editId with
  | Some n =>
      if truthy_int n
      then ("/api/products/" ++ int_toString n, "PUT")
      else ("/api/products", "POST")
  | None => ("/api/products", "POST")
  end.

Definition saveRequest (s : State) : Request :=
  {| method := snd (saveTarget (currentEditId s));
     url := fst (saveTarget (currentEditId s));
     authorization := Some (authHeaders s); contentType := None;
     payload := FormData (productFormData (form (dom s))) |}.

(** The submit handler of [productForm], up to its [await fetch]. *)
Definition productForm_submit (s : State) : State :=
  fetch (saveRequest s) PendSave s.

(** The rest of it. *)
Definition productForm_settled (o : Outcome) (s : State) : State :=
  match o with
  | NetworkError => showMessage "Error de conexión" "error" s
  | Response status body =>
      if ok status then
        let s := showMessage "Producto guardado exitosamente" "success" s in
        let s := closeProductModal s in
        loadProducts s
      else
        match body with
        | NoJson => showMessage "Error de conexión" "error" s
        | JsonError detail =>
            showMessage (or_else detail "Error al guardar producto") "error" s
        | _ => showMessage "Error al guardar producto" "error" s
        end
  end.

(** *** Editing a product *)

Definition editProduct (id : Z) (s : State) : State :=
  fetch (listRequest s) (PendEdit id) s.

(** [product.price || ''], as the value of an input. *)
Definition priceValue (p : Product) : string :=
  match p_price p with
  | just x => if truthy_number x then Number_toString x else EmptyString
  | _ => EmptyString
  end.

(** The body of [if (product)]. *)
Definition openEdit (id : Z) (product : Product) (s : State) : State :=
  let s := set_currentEditId (Some id) s in
  let s := with_dom (set_modalTitle "Editar Producto") s in
  let s := with_dom (set_productId (int_toString id)) s in
  let s := with_dom (set_form
    {| productName := p_name product;
       productDescription := or_else (p_description product) EmptyString;
       productPrice := priceValue product;
       productImage := productImage (form (dom s)) |}) s in
  let s := with_dom (set_imageRequired false) s in
  let s :=
    if truthy_maybe truthy_string (p_image product) then
      let s := with_dom (set_previewSrc
        ("data:image/jpeg;base64," ++ maybe_toString (p_image product))) s in
      with_dom (set_previewDisplay "block") s
    else s in
  with_dom (set_modalActive true) s.

(** [products.find(p => p.id === id)] *)
Definition findProduct (id : Z) (products : list Product) : option Product :=
  find (fun p => (p_id p =? id)%Z) products.

(** [editProduct] once its request has settled; the status is not
    looked at. *)
Definition editProduct_settled (id : Z) (o : Outcome) (s : State) : State :=
  match o with
  | NetworkError => showMessage "Error al cargar producto" "error" s
  | Response _ body =>
      match body with
      | JsonProducts products =>
          match findProduct id products with
          | Some product => openEdit id product s
          | None => s
          end
      | _ => showMessage "Error al cargar producto" "error" s
      end
  end.

(** *** Deleting a product *)

Definition deleteRequest (id : Z) (s : State) : Request :=
  {| method := "DELETE"; url := "/api/products/" ++ int_toString id;
     authorization := Some (authHeaders s); contentType := None;
     payload := NoPayload |}.

(** [confirmed] is the answer to the [confirm] dialog. *)
Definition deleteProduct (id : Z) (confirmed : bool) (s : State) : State :=
  if confirmed then fetch (deleteRequest id s) PendDelete s else s.

Definition deleteProduct_settled (o : Outcome) (s : State) : State :=
  match o with
  | NetworkError => showMessage "Error de conexión" "error" s
  | Response status _ =>
      if ok status then
        loadProducts (showMessage "Producto eliminado exitosamente" "success" s)
      else showMessage "Error al eliminar producto" "error" s
  end.

(** *** The configuration *)

Definition configRequest : Request :=
  {| method := "GET"; url := "/api/config"; authorization := None;
     contentType := None; payload := NoPayload |}.

Definition loadConfig (s : State) : State :=
  fetch configRequest PendLoadConfig s.

Definition fillConfig (c : SiteConfig) : ConfigForm :=
  {| primaryColor := to_value (primary_color c);
     backgroundColor := to_value (background_color c);
     productBgColor := to_value (product_bg_color c);
     whatsappNumber := or_else (whatsapp_number c) EmptyString |}.

(** A body that parses but is no configuration has none of the four
    properties. *)
Definition noConfig : SiteConfig :=
  {| primary_color := undefined; background_color := undefined;
     product_bg_color := undefined; whatsapp_number := undefined |}.

Definition loadConfig_settled (o : Outcome) (s : State) : State :=
  match o with
  | NetworkError => showMessage "Error al cargar configuración" "error" s
  | Response _ body =>
      match body with
      | NoJson => showMessage "Error al cargar configuración" "error" s
      | JsonConfig c => with_dom (set_configForm (fillConfig c)) s
      | _ => with_dom (set_configForm (fillConfig noConfig)) s
      end
  end.

Definition saveConfigRequest (s : State) : Request :=
  {| method := "PUT"; url := "/api/config";
     authorization := Some (authHeaders s);
     contentType := Some "application/json";
     payload := JsonBody (configForm (dom s)) |}.

Definition configForm_submit (s : State) : State :=
  fetch (saveConfigRequest s) PendSaveConfig s.

Definition configForm_settled (o : Outcome) (s : State) : State :=
  match o with
  | NetworkError => showMessage "Error de conexión" "error" s
  | Response status _ =>
      if ok status
      then showMessage "Configuración guardada exitosamente" "success" s
      else showMessage "Error al guardar configuración" "error" s
  end.

(** *** Tabs and logout *)

Definition tab_onclick (t : Tab) (s : State) : State :=
  let s := with_dom (set_activeTabs [t]) s in
  match t with
  | TabProducts => loadProducts s
  | TabConfig => loadConfig s
  end.

Definition logout_onclick (s : State) : State :=
  redirect "/login" (set_token None s).

(** ** The event loop *)

(** What can happen to the page once the script has run. *)
Inductive Event : Type :=
| TabClick : Tab -> Event
| LogoutClick : Event
| AddClick : Event
| CloseClick : Event
| WindowClick : bool -> Event           (* did it hit the modal itself *)
| ImageChange : option File -> Event
| ReaderLoad : nat -> string -> Event   (* which reader, its result *)
| FormSubmit : Event
| EditClick : Z -> Event
| DeleteClick : Z -> bool -> Event      (* the answer to confirm() *)
| ConfigSubmit : Event
| Settle : nat -> Outcome -> Event      (* which request, how it ended *)
| Elapse : N -> Event.                  (* milliseconds go by *)

Fixpoint remove_nth {A : Type} (k : nat) (l : list A) : list A :=
  match l, k with
  | [], _ => []
  | _ :: t, O => t
  | x :: t, S k' => x :: remove_nth k' t
  end.

(** The code that was waiting for a request. *)
Definition resume (p : Pending) (o : Outcome) (s : State) : State :=
  match p with
  | PendLoadProducts => loadProducts_settled o s
  | PendSave => productForm_settled o s
  | PendEdit id => editProduct_settled id o s
  | PendDelete => deleteProduct_settled o s
  | PendLoadConfig => loadConfig_settled o s
  | PendSaveConfig => configForm_settled o s
  end.

Definition settle (k : nat) (o : Outcome) (s : State) : State :=
  match nth_error (pending s) k with
  | Some p => resume p o (set_pending (remove_nth k (pending s)) s)
  | None => s
  end.

Definition reader_settle (k : nat) (result : string) (s : State) : State :=
  match nth_error (reading s) k with
  | Some _ => reader_onload result (set_reading (remove_nth k (reading s)) s)
  | None => s
  end.

(** The clock advances by [dt]; every timeout that is due by then runs
    its callback.  (Timeouts are taken to run when they are due, not
    later.) *)
Definition elapse (dt : N) (s : State) : State :=
  let t := (now s + dt)%N in
  let due := filter (fun d => (d <=? t)%N) (timers s) in
  let later := filter (fun d => negb (d <=? t)%N) (timers s) in
  fold_left (fun s _ => clearMessage s) due (set_now t (set_timers later s)).

Definition step (e : Event) (s : State) : State :=
  match e with
  | TabClick t => tab_onclick t s
  | LogoutClick => logout_onclick s
  | AddClick => addBtn_onclick s
  | CloseClick => closeProductModal s
  | WindowClick onModal => window_onclick onModal s
  | ImageChange file => productImage_change file s
  | ReaderLoad k result => reader_settle k result s
  | FormSubmit => productForm_submit s
  | EditClick id => editProduct id s
  | DeleteClick id confirmed => deleteProduct id confirmed s
  | ConfigSubmit => configForm_submit s
  | Settle k o => settle k o s
  | Elapse dt => elapse dt s
  end.

Definition run (events : list Event) (s : State) : State :=
  fold_left (fun s e => step e s) events s.

(** The script from its first line to its last: the token guard, the
    header, [currentEditId], and the call of [loadProducts] that ends
    the file.  [stored] is what [localStorage.getItem('token')] returns,
    [page] the document as the template delivers it. *)
Definition script_load (stored : option string) (page : Dom) : State :=
  let s :=
    {| dom := page; formDefaults := form page; token := stored;
       authHeaders := "Bearer " ++ opt_toString stored;
       currentEditId := None; now := 0%N; timers := []; pending := [];
       reading := []; effects := [] |} in
  let s := if truthy_opt_string stored then s else redirect "/login" s in
  loadProducts s.

(** The states the page can be in. *)
Inductive reachable (stored : option string) (page : Dom) : State -> Prop :=
| reach_load : reachable stored page (script_load stored page)
| reach_step : forall e s,
    reachable stored page s -> reachable stored page (step e s).

(** ** Sample data *)

Definition blankForm : ProductForm :=
  {| productName := EmptyString; productDescription := EmptyString;
     productPrice := EmptyString; productImage := None |}.

Definition blankPage : Dom :=
  {| activeTabs := [TabProducts]; modalActive := false;
     modalTitle := EmptyString; productId := EmptyString; form := blankForm;
     imageRequired := false; previewSrc := EmptyString;
     previewDisplay := EmptyString; productsList := EmptyString;
     configForm := {| primaryColor := EmptyString;
                      backgroundColor := EmptyString;
                      productBgColor := EmptyString;
                      whatsappNumber := EmptyString |};
     messageText := EmptyString; messageClass := "message" |}.

Definition mug : Product :=
  {| p_id := 7; p_name := "Taza"; p_description := just "Taza de barro";
     p_price := just (19 # 2); p_image := just "aGk=" |}.

Definition gift : Product :=
  {| p_id := 8; p_name := "Muestra"; p_description := just EmptyString;
     p_price := just 0%Q; p_image := null |}.

(** The list shows both products. *)
Definition listed : State :=
  run [Settle 0 (Response 200 (JsonProducts [mug; gift]))]
      (script_load (Some "abc") blankPage).

(** The operator has clicked Editar on product 7; the request is out. *)
Definition editing : State := step (EditClick 7) listed.

(** The list came back again and the edit dialog of product 7 is open. *)
Definition editingMug : State :=
  step (Settle 0 (Response 200 (JsonProducts [mug; gift]))) editing.

(** The operator has submitted the product form; the request is out. *)
Definition saving : State := step FormSubmit listed.

(** The configuration tab has been clicked; its request is out. *)
Definition configuring : State := step (TabClick TabConfig) listed.

(** The first list request failed in transport. *)
Definition failing : State :=
  step (Settle 0 NetworkError) (script_load (Some "abc") blankPage).

(** ** Vocabulary of the statements *)

(** [needle] occurs in [hay]. *)
Definition contains (needle hay : string) : Prop :=
  exists before after, hay = before ++ needle ++ after.

(** The same product with another price, or another description. *)
Definition with_price (v : maybe number) (p : Product) : Product :=
  {| p_id := p_id p; p_name := p_name p; p_description := p_description p;
     p_price := v; p_image := p_image p |}.

Definition with_description (v : maybe string) (p : Product) : Product :=
  {| p_id := p_id p; p_name := p_name p; p_description := v;
     p_price := p_price p; p_image := p_image p |}.

(** No request has left the page. *)
Definition issues_no_request (s : State) : Prop :=
  forall r, ~ In (Fetch r) (effects s).

(** The invariant the dialog is said to keep. *)
Definition closed_means_no_edit (s : State) : Prop :=
  modalActive (dom s) = false -> currentEditId s = None.

(** The one it does keep: [currentEditId] is only ever set together
    with the title of the edit dialog. *)
Definition edit_id_from_edit_dialog (s : State) : Prop :=
  currentEditId s = None \/ modalTitle (dom s) = "Editar Producto".

(** A request carries the header built at load, unless it is the
    configuration read, which carries none. *)
Definition request_credentials (header : string) (r : Request) : Prop :=
  r = configRequest \/ authorization r = Some header.

(** The two classes [showMessage] is called with. *)
Definition styled (c : string) : Prop :=
  c = "message success" \/ c = "message error".

(** The request did not succeed: no response, or a status that is not
    ok. *)
Definition failed (o : Outcome) : bool :=
  match o with
  | NetworkError => true
  | Response status _ => negb (ok status)
  end.

(** The message of each [catch]. *)
Definition errorText (p : Pending) : string :=
  match p with
  | PendLoadProducts => "Error al cargar productos"
  | PendEdit _ => "Error al cargar producto"
  | PendLoadConfig => "Error al cargar configuración"
  | PendSave | PendDelete | PendSaveConfig => "Error de conexión"
  end.

(** The body parsed to an array of products. *)
Definition is_product_list (body : Body) : bool :=
  match body with
  | JsonProducts _ => true
  | _ => false
  end.

(** ** The host functions on known values *)

Example toFixed_values :
  toFixed 2 (19 # 2) = "9.50" /\ toFixed 2 (1234567 # 1000) = "1234.57" /\
  toFixed 2 (5 # 1000) = "0.01" /\ toFixed 2 (- (1 # 1000)) = "-0.00" /\
  toFixed 2 12 = "12.00" /\ toFixed 0 (5 # 2) = "3" /\
  toFixed 2 (inject_Z (10 ^ 21)) = "1e+21".
Proof. repeat split. Qed.

Example Number_toString_values :
  Number_toString (19 # 2) = "9.5" /\ Number_toString 7 = "7" /\
  Number_toString (- (3 # 2)) = "-1.5" /\ Number_toString 0 = "0" /\
  Number_toString (1 # 1000000) = "0.000001" /\
  Number_toString (1 # 10000000) = "1e-7" /\
  Number_toString (inject_Z 123456789012345680000) = "123456789012345680000" /\
  Number_toString (inject_Z (2 ^ 70)) = "1.1805916207174113e+21" /\
  Number_toString (inject_Z (2 ^ 53)) = "9007199254740992".
Proof. repeat split. Qed.

Example productCard_mug :
  productCard mug =
  nl ++
  "            <div class=" ++ quoted "product-item" ++ ">" ++ nl ++
  "                <img src=" ++ quoted "data:image/jpeg;base64,aGk=" ++
  " alt=" ++ quoted "Taza" ++ ">" ++ nl ++
  "                <div class=" ++ quoted "product-item-info" ++ ">" ++ nl ++
  "                    <h4>Taza</h4>" ++ nl ++
  "                    <p>Taza de barro</p>" ++ nl ++
  "                    <p><strong>$9.50</strong></p>" ++ nl ++
  "                </div>" ++ nl ++
  "                <div class=" ++ quoted "product-item-actions" ++ ">" ++ nl ++
  "                    <button class=" ++ quoted "btn-edit" ++ " onclick=" ++
  quoted "editProduct(7)" ++ ">Editar</button>" ++ nl ++
  "                    <button class=" ++ quoted "btn-delete" ++ " onclick=" ++
  quoted "deleteProduct(7)" ++ ">Eliminar</button>" ++ nl ++
  "                </div>" ++ nl ++
  "            </div>" ++ nl ++
  "        ".
Proof. reflexivity. Qed.

(** An empty list gives the placeholder and no card. *)
Example empty_list_placeholder :
  productsList
    (dom (run [Settle 0 (Response 200 (JsonProducts []))]
              (script_load (Some "abc") blankPage))) = noProducts.
Proof. reflexivity. Qed.

(** ** Frame lemmas

    Which handler touches which part of the state. *)

Lemma clearMessage_twice (s : State) :
  clearMessage (clearMessage s) = clearMessage s.
Proof. reflexivity. Qed.

(** Any number of expired timeouts does what one does. *)
Lemma fold_clearMessage (due : list N) (s : State) :
  fold_left (fun s _ => clearMessage s) due s =
  match due with
  | [] => s
  | _ :: _ => clearMessage s
  end.
Proof.
  revert s. induction due as [| d due IH]; intro s; simpl.
  - reflexivity.
  - rewrite IH. destruct due; reflexivity.
Qed.

Lemma elapse_unfold (dt : N) (s : State) :
  elapse dt s =
  let t := (now s + dt)%N in
  let s' := set_now t
              (set_timers (filter (fun d => negb (d <=? t)%N) (timers s)) s) in
  match filter (fun d => (d <=? t)%N) (timers s) with
  | [] => s'
  | _ :: _ => clearMessage s'
  end.
Proof. unfold elapse. cbv zeta. apply fold_clearMessage. Qed.

Lemma nth_error_app_last {A : Type} (l : list A) (x : A) :
  nth_error (l ++ [x]) (length l) = Some x.
Proof. induction l as [| y l IH]; simpl; [reflexivity | exact IH]. Qed.

Lemma remove_nth_app_last {A : Type} (l : list A) (x : A) :
  remove_nth (length l) (l ++ [x]) = l.
Proof.
  induction l as [| y l IH]; simpl; [reflexivity | now rewrite IH].
Qed.

(** The session (token, navigation, requests) is only touched by the
    handlers that say so; a notification never does. *)
Lemma showMessage_session (text type : string) (s : State) :
  token (showMessage text type s) = token s /\
  effects (showMessage text type s) = effects s /\
  currentEditId (showMessage text type s) = currentEditId s /\
  pending (showMessage text type s) = pending s.
Proof. repeat split. Qed.

(** ** C1: a 401 answer *)

(** [loadProducts] does treat it: the token goes and the browser is sent
    to the login page, whatever the body. *)
Lemma loadProducts_401 (body : Body) (s : State) :
  token (loadProducts_settled (Response 401 body) s) = None /\
  effects (loadProducts_settled (Response 401 body) s) =
    Navigate "/login" :: effects s.
Proof. split; reflexivity. Qed.

(** C1.  The claim is that every authenticated request answers a 401 by
    removing the token and going to /login.  The save, delete and
    configuration handlers have no such test: a 401 is one more status
    that is not ok, so the token stays where it is, nothing is added to
    the effects (no navigation), and an error message is shown instead;
    [editProduct] never looks at the status either. *)
Theorem unauthorized_only_handled_by_list (body : Body) (s : State) :
  (token (productForm_settled (Response 401 body) s) = token s /\
   effects (productForm_settled (Response 401 body) s) = effects s) /\
  (token (deleteProduct_settled (Response 401 body) s) = token s /\
   effects (deleteProduct_settled (Response 401 body) s) = effects s /\
   messageText (dom (deleteProduct_settled (Response 401 body) s)) =
     "Error al eliminar producto") /\
  (token (configForm_settled (Response 401 body) s) = token s /\
   effects (configForm_settled (Response 401 body) s) = effects s /\
   messageText (dom (configForm_settled (Response 401 body) s)) =
     "Error al guardar configuración") /\
  (forall id,
     token (editProduct_settled id (Response 401 body) s) = token s /\
     effects (editProduct_settled id (Response 401 body) s) = effects s).
Proof.
  repeat split; try reflexivity.
  - destruct body; reflexivity.
  - destruct body; reflexivity.
  - destruct body as [| products | |]; try reflexivity.
    simpl. destruct (findProduct id products); [| reflexivity].
    unfold openEdit. cbv zeta. destruct (truthy_maybe _ _); reflexivity.
  - destruct body as [| products | |]; try reflexivity.
    simpl. destruct (findProduct id products); [| reflexivity].
    unfold openEdit. cbv zeta. destruct (truthy_maybe _ _); reflexivity.
Qed.

(** The same on a run: a signed-in operator saves a product and the
    backend answers 401 with a detail. *)
Example save_answered_401 :
  let s := run [FormSubmit;
                Settle 1 (Response 401 (JsonError (just "Not authenticated")))]
               (script_load (Some "abc") blankPage) in
  token s = Some "abc" /\
  (forall to, ~ In (Navigate to) (effects s)) /\
  messageText (dom s) = "Not authenticated".
Proof.
  cbv zeta. repeat split.
  intros to [H | [H | H]]; try discriminate H; exact H.
Qed.

(** ** C2: the script without a token *)

(** The guard sets the location and nothing else: the rest of the file
    still runs, and its last line calls [loadProducts]. *)
Lemma script_load_always_fetches (stored : option string) (page : Dom) :
  exists before,
    trace (script_load stored page) =
    (before ++ [Fetch {| method := "GET"; url := "/api/products";
                         authorization :=
                           Some ("Bearer " ++ opt_toString stored)%string;
                         contentType := None; payload := NoPayload |}])%list.
Proof.
  unfold script_load, trace. cbv zeta.
  destruct (truthy_opt_string stored).
  - exists []. reflexivity.
  - exists [Navigate "/login"]. reflexivity.
Qed.

(** C2, as stated, fails: with no token in storage the script redirects,
    and then issues GET /api/products all the same. *)
Lemma script_load_without_token_requests :
  trace (script_load None blankPage) =
    [Navigate "/login"; Fetch (listRequest (script_load None blankPage))] /\
  ~ issues_no_request (script_load None blankPage).
Proof.
  split; [reflexivity |].
  intro H. apply (H (listRequest (script_load None blankPage))).
  left. reflexivity.
Qed.

(** C2, amended.  On script load with no token in storage the first thing
    that happens is the redirect to /login; the script is not stopped by
    it, and the call of [loadProducts] that ends the file still issues
    GET /api/products, with the header Authorization: Bearer null. *)
Theorem script_load_without_token (page : Dom) :
  trace (script_load None page) =
    [Navigate "/login";
     Fetch {| method := "GET"; url := "/api/products";
              authorization := Some "Bearer null";
              contentType := None; payload := NoPayload |}] /\
  pending (script_load None page) = [PendLoadProducts] /\
  token (script_load None page) = None.
Proof. repeat split. Qed.

(** ** C3: the dialog and [currentEditId] *)

Lemma showMessage_dialog (text type : string) (s : State) :
  modalTitle (dom (showMessage text type s)) = modalTitle (dom s) /\
  modalActive (dom (showMessage text type s)) = modalActive (dom s).
Proof. split; reflexivity. Qed.

Lemma openEdit_dialog (id : Z) (product : Product) (s : State) :
  currentEditId (openEdit id product s) = Some id /\
  modalTitle (dom (openEdit id product s)) = "Editar Producto" /\
  modalActive (dom (openEdit id product s)) = true.
Proof.
  unfold openEdit. cbv zeta.
  destruct (truthy_maybe truthy_string (p_image product)); repeat split.
Qed.

(** A settled request changes [currentEditId] only by opening the edit
    dialog. *)
Lemma resume_edit_id (p : Pending) (o : Outcome) (s : State) :
  (currentEditId (resume p o s) = currentEditId s /\
   modalTitle (dom (resume p o s)) = modalTitle (dom s)) \/
  (exists id, p = PendEdit id /\
     currentEditId (resume p o s) = Some id /\
     modalTitle (dom (resume p o s)) = "Editar Producto").
Proof.
  destruct p as [| | id | | |]; destruct o as [| status body]; simpl;
    try (left; split; reflexivity).
  - destruct (status =? 401)%Z; [left; split; reflexivity |].
    destruct body as [| [| p ps] | |]; left; split; reflexivity.
  - destruct (ok status); [left; split; reflexivity |].
    destruct body; left; split; reflexivity.
  - destruct body as [| products | |]; try (left; split; reflexivity).
    destruct (findProduct id products) as [product |].
    + right. exists id. split; [reflexivity |].
      destruct (openEdit_dialog id product s) as (H1 & H2 & _).
      split; assumption.
    + left; split; reflexivity.
  - destruct (ok status); left; split; reflexivity.
  - destruct body; left; split; reflexivity.
  - destruct (ok status); left; split; reflexivity.
Qed.

Lemma elapse_dialog (dt : N) (s : State) :
  currentEditId (elapse dt s) = currentEditId s /\
  modalTitle (dom (elapse dt s)) = modalTitle (dom s) /\
  modalActive (dom (elapse dt s)) = modalActive (dom s).
Proof.
  rewrite elapse_unfold. cbv zeta.
  destruct (filter _ (timers s)); repeat split.
Qed.

(** Every event but the add button and the opening of an edit dialog
    leaves [currentEditId] and the title as they are. *)
Lemma step_edit_id (e : Event) (s : State) :
  (currentEditId (step e s) = currentEditId s /\
   modalTitle (dom (step e s)) = modalTitle (dom s)) \/
  (e = AddClick /\ currentEditId (step e s) = None) \/
  (exists k o id, e = Settle k o /\
     nth_error (pending s) k = Some (PendEdit id) /\
     currentEditId (step e s) = Some id /\
     modalTitle (dom (step e s)) = "Editar Producto").
Proof.
  destruct e as [t | | | | onModal | file | k result | | id | id confirmed
                | | k o | dt]; simpl.
  - left. destruct t; split; reflexivity.
  - left. split; reflexivity.
  - right. left. split; reflexivity.
  - left. split; reflexivity.
  - left. destruct onModal; split; reflexivity.
  - left. destruct file; split; reflexivity.
  - left. unfold reader_settle.
    destruct (nth_error (reading s) k); split; reflexivity.
  - left. split; reflexivity.
  - left. split; reflexivity.
  - left. destruct confirmed; split; reflexivity.
  - left. split; reflexivity.
  - unfold settle. destruct (nth_error (pending s) k) as [p |] eqn:Hk.
    + destruct (resume_edit_id p o
                  (set_pending (remove_nth k (pending s)) s))
        as [H | (id & -> & H)].
      * left. exact H.
      * right. right. exists k, o, id. repeat split; try apply H. exact Hk.
    + left. split; reflexivity.
  - left. destruct (elapse_dialog dt s) as (H1 & H2 & _). split; assumption.
Qed.

Lemma reachable_edit_id (stored : option string) (page : Dom) (s : State) :
  reachable stored page s -> edit_id_from_edit_dialog s.
Proof.
  induction 1 as [| e s Hs IH].
  - left. unfold script_load. cbv zeta.
    destruct (truthy_opt_string stored); reflexivity.
  - unfold edit_id_from_edit_dialog in *.
    destruct (step_edit_id e s)
      as [[H1 H2] | [[_ H] | (k & o & id & _ & _ & _ & H)]].
    + rewrite H1, H2. exact IH.
    + left. exact H.
    + right. exact H.
Qed.

Lemma run_reachable (stored : option string) (page : Dom)
      (events : list Event) (s : State) :
  reachable stored page s -> reachable stored page (run events s).
Proof.
  revert s. induction events as [| e events IH]; intros s H; simpl.
  - exact H.
  - apply IH. apply reach_step. exact H.
Qed.

(** C3, as stated, fails.  The list shows product 7, the operator opens
    its edit dialog and closes it again: the modal is closed and
    [currentEditId] is still 7. *)
Lemma closed_modal_keeps_edit_id :
  reachable (Some "abc") blankPage
    (run [Settle 0 (Response 200 (JsonProducts [mug]));
          EditClick 7;
          Settle 0 (Response 200 (JsonProducts [mug]));
          CloseClick]
         (script_load (Some "abc") blankPage)) /\
  ~ closed_means_no_edit
      (run [Settle 0 (Response 200 (JsonProducts [mug]));
            EditClick 7;
            Settle 0 (Response 200 (JsonProducts [mug]));
            CloseClick]
           (script_load (Some "abc") blankPage)).
Proof.
  split.
  - apply run_reachable. apply reach_load.
  - intro H. specialize (H eq_refl). discriminate H.
Qed.

(** C3, amended.  In every reachable state [currentEditId] is null
    unless the dialog last set up was the edit dialog (its title says
    so).  Closing the modal, by the close button or by a click on the
    modal itself, removes the active class and leaves [currentEditId] as
    it is; it is the add button that resets it to null, when it opens
    the create dialog. *)
Theorem edit_id_reset_on_open_not_on_close
        (stored : option string) (page : Dom) (s : State)
        (Hs : reachable stored page s) :
  edit_id_from_edit_dialog s /\
  (modalActive (dom (step CloseClick s)) = false /\
   currentEditId (step CloseClick s) = currentEditId s) /\
  (modalActive (dom (step (WindowClick true) s)) = false /\
   currentEditId (step (WindowClick true) s) = currentEditId s) /\
  (modalActive (dom (step AddClick s)) = true /\
   currentEditId (step AddClick s) = None).
Proof.
  split; [exact (reachable_edit_id stored page s Hs) |].
  repeat split.
Qed.

Lemma edit_id_reset_on_open_not_on_close_witness :
  reachable (Some "abc") blankPage (script_load (Some "abc") blankPage) /\
  edit_id_from_edit_dialog (script_load (Some "abc") blankPage) /\
  currentEditId (step CloseClick (script_load (Some "abc") blankPage)) =
    currentEditId (script_load (Some "abc") blankPage).
Proof.
  split; [apply reach_load |].
  split;
    apply (edit_id_reset_on_open_not_on_close
             (Some "abc") blankPage _ (reach_load _ _)).
Defined.

(** ** C4: a save that fails *)




(** ** C5: the notification *)

Lemma showMessage_shows (text type : string) (s : State) :
  messageText (dom (showMessage text type s)) = text /\
  messageClass (dom (showMessage text type s)) = "message " ++ type /\
  timers (showMessage text type s) = (timers s ++ [(now s + 4000)%N])%list /\
  now (showMessage text type s) = now s.
Proof. repeat split. Qed.

Lemma elapse_now (dt : N) (s : State) : now (elapse dt s) = (now s + dt)%N.
Proof.
  rewrite elapse_unfold. cbv zeta. destruct (filter _ (timers s)); reflexivity.
Qed.

Lemma elapse_text (dt : N) (s : State) :
  messageText (dom (elapse dt s)) = messageText (dom s).
Proof.
  rewrite elapse_unfold. cbv zeta. destruct (filter _ (timers s)); reflexivity.
Qed.

(** A timeout that is due by the end of the wait blanks the banner. *)
Lemma elapse_clears (dt due : N) (s : State) :
  In due (timers s) -> (due <= now s + dt)%N ->
  messageClass (dom (elapse dt s)) = "message".
Proof.
  intros Hin Hdue. rewrite elapse_unfold. cbv zeta.
  destruct (filter (fun d => (d <=? now s + dt)%N) (timers s)) eqn:Hf.
  - exfalso.
    assert (H : In due (filter (fun d => (d <=? now s + dt)%N) (timers s))).
    { apply filter_In. split; [exact Hin | now apply N.leb_le]. }
    rewrite Hf in H. exact H.
  - reflexivity.
Qed.

(** A timeout that is not yet due stays. *)
Lemma elapse_keeps_timer (dt due : N) (s : State) :
  In due (timers s) -> (now s + dt < due)%N -> In due (timers (elapse dt s)).
Proof.
  intros Hin Hlater. rewrite elapse_unfold. cbv zeta.
  assert (H : In due (filter (fun d => negb (d <=? now s + dt)%N) (timers s))).
  { apply filter_In. split; [exact Hin |].
    apply negb_true_iff, N.leb_gt. exact Hlater. }
  destruct (filter (fun d => (d <=? now s + dt)%N) (timers s)); exact H.
Qed.

(** With no timeout due, waiting changes nothing on the page. *)
Lemma elapse_quiet (dt : N) (s : State) :
  (forall due, In due (timers s) -> (now s + dt < due)%N) ->
  dom (elapse dt s) = dom s.
Proof.
  intro Hall. rewrite elapse_unfold. cbv zeta.
  destruct (filter (fun d => (d <=? now s + dt)%N) (timers s))
    as [| x l] eqn:Hf.
  - reflexivity.
  - exfalso.
    assert (H : In x (filter (fun d => (d <=? now s + dt)%N) (timers s))).
    { rewrite Hf. left. reflexivity. }
    apply filter_In in H. destruct H as [Hin Hle].
    apply N.leb_le in Hle. specialize (Hall x Hin). lia.
Qed.

(** C5.  One banner: [showMessage] sets its text and its class, message
    success or message error, and leaves a timeout due 4000 ms later
    whose callback puts the class back to the bare message (the text
    stays in the element).  A message alone keeps its class for any wait
    shorter than that.  Nothing ties a timeout to its message: when a
    second message arrives [d] ms after a first, it replaces the text
    and the class at once, and the timeout of the first blanks it
    4000 - d ms later, before its own 4000 ms are over. *)
Theorem notification_single_slot
        (s : State) (text1 type1 text2 type2 : string) (d : N)
        (Hd : (0 < d < 4000)%N) :
  let s1 := showMessage text1 type1 s in
  let s2 := showMessage text2 type2 (elapse d s1) in
  (messageText (dom s1) = text1 /\
   messageClass (dom s1) = "message " ++ type1 /\
   timers s1 = (timers s ++ [(now s + 4000)%N])%list) /\
  (messageClass (dom (elapse 4000 s1)) = "message" /\
   messageText (dom (elapse 4000 s1)) = text1) /\
  (timers s = [] ->
   forall dt, (dt < 4000)%N ->
     messageClass (dom (elapse dt s1)) = "message " ++ type1) /\
  (messageText (dom s2) = text2 /\
   messageClass (dom s2) = "message " ++ type2) /\
  (messageClass (dom (elapse (4000 - d) s2)) = "message" /\
   now (elapse (4000 - d) s2) = (now s2 + (4000 - d))%N /\
   (4000 - d < 4000)%N).
Proof.
  cbv zeta.
  destruct (showMessage_shows text1 type1 s) as (Ht & Hc & Htm & Hnow).
  split; [repeat split |].
  split.
  { split.
    - apply (elapse_clears 4000 (now s + 4000)%N).
      + rewrite Htm. apply in_or_app. right. left. reflexivity.
      + rewrite Hnow. lia.
    - rewrite elapse_text. exact Ht. }
  split.
  { intros Hnone dt Hdt. rewrite elapse_quiet; [exact Hc |].
    intros due Hin. rewrite Htm, Hnone in Hin. simpl in Hin.
    destruct Hin as [<- | []]. rewrite Hnow. lia. }
  split; [repeat split |].
  split; [| split; [apply elapse_now | lia]].
  apply (elapse_clears (4000 - d) (now s + 4000)%N).
  - destruct (showMessage_shows text2 type2
                (elapse d (showMessage text1 type1 s))) as (_ & _ & -> & _).
    apply in_or_app. left. apply elapse_keeps_timer.
    + rewrite Htm. apply in_or_app. right. left. reflexivity.
    + rewrite Hnow. lia.
  - destruct (showMessage_shows text2 type2
                (elapse d (showMessage text1 type1 s))) as (_ & _ & _ & ->).
    rewrite elapse_now, Hnow. lia.
Qed.

Lemma notification_single_slot_witness :
  (0 < 3000 < 4000)%N /\
  messageClass
    (dom (elapse (4000 - 3000)
            (showMessage "Producto eliminado exitosamente" "success"
               (elapse 3000
                  (showMessage "Error de conexión" "error"
                     (script_load (Some "abc") blankPage))))))
  = "message".
Proof.
  split; [lia |].
  apply (notification_single_slot
           (script_load (Some "abc") blankPage)
           "Error de conexión" "error"
           "Producto eliminado exitosamente" "success" 3000%N).
  lia.
Defined.

(** ** C6: where a save goes *)

Lemma productForm_submit_effects (s : State) :
  effects (productForm_submit s) = Fetch (saveRequest s) :: effects s /\
  pending (productForm_submit s) = (pending s ++ [PendSave])%list.
Proof. split; reflexivity. Qed.

(** C6.  Submitting the product form with [currentEditId] null issues
    POST /api/products; with [currentEditId] 7 it issues
    PUT /api/products/7.  Both carry the bearer header and the form as
    multipart data. *)
Theorem save_request_target (s : State) :
  (currentEditId s = None ->
   effects (productForm_submit s) =
     Fetch {| method := "POST"; url := "/api/products";
              authorization := Some (authHeaders s); contentType := None;
              payload := FormData (productFormData (form (dom s))) |}
     :: effects s) /\
  (currentEditId s = Some 7%Z ->
   effects (productForm_submit s) =
     Fetch {| method := "PUT"; url := "/api/products/7";
              authorization := Some (authHeaders s); contentType := None;
              payload := FormData (productFormData (form (dom s))) |}
     :: effects s).
Proof.
  split; intro H; simpl; unfold saveRequest; rewrite H; reflexivity.
Qed.

Lemma save_request_target_witness :
  (currentEditId listed = None /\
   hd_error (effects (productForm_submit listed))
   = Some (Fetch {| method := "POST"; url := "/api/products";
                    authorization := Some "Bearer abc"; contentType := None;
                    payload := FormData [("name", Text EmptyString);
                                         ("description", Text EmptyString);
                                         ("price", Text EmptyString)] |})) /\
  (currentEditId editingMug = Some 7%Z /\
   hd_error (effects (productForm_submit editingMug))
   = Some (Fetch {| method := "PUT"; url := "/api/products/7";
                    authorization := Some "Bearer abc"; contentType := None;
                    payload := FormData [("name", Text "Taza");
                                         ("description", Text "Taza de barro");
                                         ("price", Text "9.5")] |})).
Proof.
  split; (split; [reflexivity |]).
  - rewrite (proj1 (save_request_target listed) eq_refl). reflexivity.
  - rewrite (proj2 (save_request_target editingMug) eq_refl). reflexivity.
Defined.

(** ** C7 and C9: the edit and the create dialog *)

Lemma findProduct_present (id : Z) (products : list Product) :
  (exists p, In p products /\ p_id p = id) ->
  exists product,
    findProduct id products = Some product /\
    In product products /\ p_id product = id.
Proof.
  intros (p & Hin & Hid). unfold findProduct.
  destruct (find (fun q => (p_id q =? id)%Z) products) as [product |] eqn:Hf.
  - exists product. apply find_some in Hf. destruct Hf as [Hp Heq].
    split; [reflexivity | split; [exact Hp | now apply Z.eqb_eq]].
  - apply find_none with (x := p) in Hf; [| exact Hin].
    apply Z.eqb_neq in Hf. contradiction.
Qed.

Lemma findProduct_absent (id : Z) (products : list Product) :
  (forall p, In p products -> p_id p <> id) ->
  findProduct id products = None.
Proof.
  intro Hall. unfold findProduct.
  destruct (find (fun q => (p_id q =? id)%Z) products) as [product |] eqn:Hf.
  - apply find_some in Hf. destruct Hf as [Hp Heq].
    apply Z.eqb_eq in Heq. exfalso. exact (Hall product Hp Heq).
  - reflexivity.
Qed.

Lemma openEdit_form (id : Z) (product : Product) (s : State) :
  form (dom (openEdit id product s)) =
    {| productName := p_name product;
       productDescription := or_else (p_description product) EmptyString;
       productPrice := priceValue product;
       productImage := productImage (form (dom s)) |} /\
  productId (dom (openEdit id product s)) = int_toString id /\
  imageRequired (dom (openEdit id product s)) = false.
Proof.
  unfold openEdit. cbv zeta.
  destruct (truthy_maybe truthy_string (p_image product)); repeat split.
Qed.

(** What [productForm.reset()] restores never changes. *)
Lemma reachable_formDefaults (stored : option string) (page : Dom) (s : State) :
  reachable stored page s -> formDefaults s = form page.
Proof.
  induction 1 as [| e s Hs IH].
  - unfold script_load. cbv zeta.
    destruct (truthy_opt_string stored); reflexivity.
  - rewrite <- IH. clear IH Hs.
    destruct e as [t | | | | onModal | file | k result | | id | id confirmed
                  | | k o | dt]; simpl.
    + destruct t; reflexivity.
    + reflexivity.
    + reflexivity.
    + reflexivity.
    + destruct onModal; reflexivity.
    + destruct file; reflexivity.
    + unfold reader_settle. destruct (nth_error (reading s) k); reflexivity.
    + reflexivity.
    + reflexivity.
    + destruct confirmed; reflexivity.
    + reflexivity.
    + unfold settle. destruct (nth_error (pending s) k) as [p |];
        [| reflexivity].
      destruct p as [| | id | | |]; destruct o as [| status body]; simpl;
        try reflexivity.
      * destruct (status =? 401)%Z; [reflexivity |].
        destruct body as [| [| q qs] | |]; reflexivity.
      * destruct (ok status); [reflexivity |]. destruct body; reflexivity.
      * destruct body as [| products | |]; try reflexivity.
        destruct (findProduct id products); [| reflexivity].
        unfold openEdit. cbv zeta.
        destruct (truthy_maybe _ _); reflexivity.
      * destruct (ok status); reflexivity.
      * destruct body; reflexivity.
      * destruct (ok status); reflexivity.
    + rewrite elapse_unfold. cbv zeta.
      destruct (filter _ (timers s)); reflexivity.
Qed.

(** C7.  When the list that [editProduct(id)] fetched holds a product
    with that id, the first such product fills the form: the name field
    gets its name; the description field its description, or the empty
    string when that is missing, null or empty; the price field its
    price as ToString prints it, or the empty string when that is
    missing, null or 0.  The id field gets the id, the image input is
    made optional, [currentEditId] becomes the id and the modal opens.
    In any state, the add button resets the form, empties the id field,
    sets [currentEditId] to null, makes the image input required and
    opens the modal. *)
Theorem edit_and_create_dialogs (s : State) :
  (forall (k : nat) (id status : Z) (products : list Product),
     nth_error (pending s) k = Some (PendEdit id) ->
     (exists p, In p products /\ p_id p = id) ->
     exists product,
       findProduct id products = Some product /\
       In product products /\ p_id product = id /\
       let s' := step (Settle k (Response status (JsonProducts products))) s in
       productName (form (dom s')) = p_name product /\
       productDescription (form (dom s')) =
         match p_description product with
         | just (String c d) => String c d
         | _ => EmptyString
         end /\
       productPrice (form (dom s')) =
         match p_price product with
         | just x => if Qeq_bool x 0 then EmptyString else Number_toString x
         | _ => EmptyString
         end /\
       productId (dom s') = int_toString id /\
       imageRequired (dom s') = false /\
       currentEditId s' = Some id /\
       modalActive (dom s') = true) /\
  (let s' := step AddClick s in
   form (dom s') =
     {| productName := productName (formDefaults s);
        productDescription := productDescription (formDefaults s);
        productPrice := productPrice (formDefaults s);
        productImage := None |} /\
   productId (dom s') = EmptyString /\
   currentEditId s' = None /\
   imageRequired (dom s') = true /\
   modalActive (dom s') = true).
Proof.
  split; [| repeat split].
  intros k id status products Hk Hin.
  destruct (findProduct_present id products Hin) as (product & Hf & Hp & Hid).
  exists product. split; [exact Hf |]. split; [exact Hp |].
  split; [exact Hid |]. cbv zeta.
  assert (Hs : step (Settle k (Response status (JsonProducts products))) s =
               openEdit id product
                 (set_pending (remove_nth k (pending s)) s)).
  { simpl. unfold settle. rewrite Hk. simpl. rewrite Hf. reflexivity. }
  rewrite Hs.
  destruct (openEdit_form id product
              (set_pending (remove_nth k (pending s)) s))
    as (Hform & Hpid & Hreq).
  destruct (openEdit_dialog id product
              (set_pending (remove_nth k (pending s)) s)) as (Hcur & _ & Hact).
  rewrite Hform. cbn [productName productDescription productPrice].
  split; [reflexivity |].
  split.
  { unfold or_else. destruct (p_description product) as [| | [| c d]];
      reflexivity. }
  split.
  { unfold priceValue, truthy_number.
    destruct (p_price product) as [| | x]; try reflexivity.
    destruct (Qeq_bool x 0); reflexivity. }
  repeat split; assumption.
Qed.

(** C9.  When no product of the fetched list has the id, the settled
    [editProduct(id)] changes nothing but the list of requests in
    flight: the page (modal, form, banner), [currentEditId], the
    timeouts, the token and the effects are what they were.  Together
    with the click, all the call leaves behind is its request. *)
Theorem edit_unknown_id_changes_nothing
        (s : State) (k : nat) (id status : Z) (products : list Product)
        (Hk : nth_error (pending s) k = Some (PendEdit id))
        (Hnone : forall p, In p products -> p_id p <> id) :
  let o := Response status (JsonProducts products) in
  step (Settle k o) s = set_pending (remove_nth k (pending s)) s /\
  dom (step (Settle k o) s) = dom s /\
  currentEditId (step (Settle k o) s) = currentEditId s /\
  timers (step (Settle k o) s) = timers s /\
  token (step (Settle k o) s) = token s /\
  effects (step (Settle k o) s) = effects s /\
  dom (step (Settle (length (pending s)) o) (step (EditClick id) s)) = dom s /\
  currentEditId (step (Settle (length (pending s)) o) (step (EditClick id) s))
    = currentEditId s /\
  timers (step (Settle (length (pending s)) o) (step (EditClick id) s))
    = timers s /\
  pending (step (Settle (length (pending s)) o) (step (EditClick id) s))
    = pending s /\
  effects (step (Settle (length (pending s)) o) (step (EditClick id) s))
    = Fetch (listRequest s) :: effects s.
Proof.
  cbv zeta.
  assert (Hf : findProduct id products = None)
    by now apply findProduct_absent.
  assert (Hs : step (Settle k (Response status (JsonProducts products))) s =
               set_pending (remove_nth k (pending s)) s).
  { simpl. unfold settle. rewrite Hk. simpl. rewrite Hf. reflexivity. }
  rewrite Hs.
  assert (Hc : step (Settle (length (pending s))
                       (Response status (JsonProducts products)))
                 (step (EditClick id) s) =
               set_pending (pending s) (add_effect (Fetch (listRequest s)) s)).
  { simpl. unfold settle, editProduct, fetch. simpl.
    rewrite nth_error_app_last. simpl. rewrite Hf.
    rewrite remove_nth_app_last. reflexivity. }
  rewrite Hc. repeat split.
Qed.

Lemma edit_and_create_dialogs_witness :
  (nth_error (pending editing) 0 = Some (PendEdit 7) /\
   (exists p, In p [mug; gift] /\ p_id p = 7%Z) /\
   let s' := step (Settle 0 (Response 200 (JsonProducts [mug; gift])))
                  editing in
   productName (form (dom s')) = "Taza" /\
   productDescription (form (dom s')) = "Taza de barro" /\
   productPrice (form (dom s')) = "9.5" /\
   productId (dom s') = "7" /\
   imageRequired (dom s') = false /\
   currentEditId s' = Some 7%Z /\
   modalActive (dom s') = true) /\
  (let s' := step AddClick editingMug in
   form (dom s') = blankForm /\
   productId (dom s') = EmptyString /\
   currentEditId s' = None /\
   imageRequired (dom s') = true /\
   modalActive (dom s') = true).
Proof.
  split.
  - split; [reflexivity |].
    assert (Hin : exists p, In p [mug; gift] /\ p_id p = 7%Z).
    { exists mug. split; [left; reflexivity | reflexivity]. }
    split; [exact Hin |].
    destruct (proj1 (edit_and_create_dialogs editing)
                0%nat 7%Z 200%Z [mug; gift] eq_refl Hin)
      as (product & Hf & _ & _ & H).
    injection Hf as <-. exact H.
  - exact (proj2 (edit_and_create_dialogs editingMug)).
Defined.

Lemma edit_unknown_id_changes_nothing_witness :
  nth_error (pending editing) 0 = Some (PendEdit 7) /\
  (forall p, In p [gift] -> p_id p <> 7%Z) /\
  dom (step (Settle 0 (Response 200 (JsonProducts [gift]))) editing)
    = dom editing.
Proof.
  assert (H : forall p, In p [gift] -> p_id p <> 7%Z).
  { intros p [<- | []]. discriminate. }
  split; [reflexivity |]. split; [exact H |].
  apply (edit_unknown_id_changes_nothing editing 0 7 200 [gift] eq_refl H).
Defined.

(** ** C8 and C10: the card of a product *)

Lemma append_empty_r (s : string) : s ++ EmptyString = s.
Proof. induction s as [| c s IH]; simpl; [reflexivity | now rewrite IH]. Qed.

Lemma append_assoc (a b c : string) : (a ++ b) ++ c = a ++ b ++ c.
Proof. induction a as [| x a IH]; simpl; [reflexivity | now rewrite IH]. Qed.

Lemma length_append (a b : string) :
  String.length (a ++ b) = (String.length a + String.length b)%nat.
Proof. induction a as [| x a IH]; simpl; [reflexivity | now rewrite IH]. Qed.

Lemma length_zeros (n : nat) : String.length (zeros n) = n.
Proof. induction n as [| n IH]; simpl; [reflexivity | now rewrite IH]. Qed.

Lemma length_substring (s : string) (from n : nat) :
  (from + n <= String.length s)%nat ->
  String.length (substring from n s) = n.
Proof.
  revert from n. induction s as [| c s IH]; intros from n H; simpl in *.
  - destruct from, n; simpl in *; try reflexivity; lia.
  - destruct from as [| from].
    + destruct n as [| n]; simpl; [reflexivity |].
      rewrite (IH 0%nat n); [reflexivity | simpl; lia].
    + apply IH. lia.
Qed.

Lemma contains_refl (s : string) : contains s s.
Proof. exists EmptyString, EmptyString. simpl. now rewrite append_empty_r. Qed.

Lemma contains_append_l (x a b : string) : contains x b -> contains x (a ++ b).
Proof.
  intros (u & v & ->). exists (a ++ u), v. now rewrite append_assoc.
Qed.

Lemma contains_append_r (x a b : string) : contains x a -> contains x (a ++ b).
Proof.
  intros (u & v & ->). exists u, (v ++ b). now rewrite !append_assoc.
Qed.

Lemma contains_trans (x y z : string) :
  contains x y -> contains y z -> contains x z.
Proof.
  intros Hxy (u & v & ->). apply contains_append_l, contains_append_r, Hxy.
Qed.

Lemma concat_empty_cons (x : string) (l : list string) :
  String.concat EmptyString (x :: l) = x ++ String.concat EmptyString l.
Proof. destruct l; simpl; [now rewrite append_empty_r | reflexivity]. Qed.

Lemma renderProducts_contains (p : Product) (products : list Product) :
  In p products -> contains (productCard p) (renderProducts products).
Proof.
  unfold renderProducts. induction products as [| q products IH]; intros H.
  - destruct H.
  - rewrite map_cons, concat_empty_cons. destruct H as [-> | H].
    + apply contains_append_r, contains_refl.
    + apply contains_append_l, IH, H.
Qed.

Lemma productCard_contains_priceLine (p : Product) :
  contains (priceLine p) (productCard p).
Proof.
  unfold productCard.
  do 6 apply contains_append_l. apply contains_append_r.
  unfold line. apply contains_append_l, contains_append_r, contains_refl.
Qed.

(** What a list that is not empty and not answered with 401 puts on the
    page. *)
Lemma loadProducts_renders (status : Z) (products : list Product) (s : State) :
  status <> 401%Z -> products <> [] ->
  productsList (dom (loadProducts_settled
                       (Response status (JsonProducts products)) s))
  = renderProducts products.
Proof.
  intros Hs Hp. unfold loadProducts_settled.
  apply Z.eqb_neq in Hs. rewrite Hs.
  destruct products; [contradiction | reflexivity].
Qed.

(** The digits branch of [toFixed(2)] always ends in a point and two
    characters. *)
Lemma place_point_two (n : Z) :
  exists a b, place_point 2 n = a ++ "." ++ b /\ String.length b = 2%nat.
Proof.
  unfold place_point.
  set (m := if (String.length (decimal n) <=? 2)%nat
            then zeros (2 + 1 - String.length (decimal n)) ++ decimal n
            else decimal n).
  assert (Hm : (3 <= String.length m)%nat).
  { subst m. destruct (String.length (decimal n) <=? 2)%nat eqn:E.
    - apply Nat.leb_le in E. rewrite length_append, length_zeros. lia.
    - apply Nat.leb_gt in E. lia. }
  cbv zeta.
  exists (substring 0 (String.length m - 2) m),
         (substring (String.length m - 2) 2 m).
  split; [reflexivity |]. apply length_substring. lia.
Qed.

Lemma magnitude_abs (x : number) :
  (if is_negative x then (- x)%Q else x) == Qabs x.
Proof.
  unfold is_negative. destruct (Qle_bool 0 x) eqn:E; simpl.
  - apply Qle_bool_iff in E. symmetry. apply Qabs_pos, E.
  - symmetry. apply Qabs_neg. apply Qnot_lt_le. intro H.
    apply Qlt_le_weak, Qle_bool_iff in H. congruence.
Qed.

Lemma toFixed_two_places (x : number) :
  Qabs x < ten_pow 21 ->
  exists a b, toFixed 2 x = a ++ "." ++ b /\ String.length b = 2%nat.
Proof.
  intro Hsmall. unfold toFixed. cbv zeta.
  assert (H : Qle_bool (ten_pow 21)
                (if is_negative x then (- x)%Q else x) = false).
  { destruct (Qle_bool _ _) eqn:E; [| reflexivity].
    apply Qle_bool_iff in E. rewrite magnitude_abs in E.
    exfalso. exact (Qlt_not_le _ _ Hsmall E). }
  rewrite H.
  destruct (place_point_two
              (nearest_scaled 2 (if is_negative x then (- x)%Q else x)))
    as (a & b & -> & Hb).
  exists ((if is_negative x then "-" else EmptyString) ++ a), b.
  split; [now rewrite append_assoc | exact Hb].
Qed.

Lemma toFixed_9_5 (x : number) : x == 19 # 2 -> toFixed 2 x = "9.50".
Proof.
  intro Hx.
  assert (Hneg : is_negative x = false).
  { unfold is_negative. rewrite Hx. reflexivity. }
  unfold toFixed. cbv zeta. rewrite Hneg.
  assert (Hsmall : Qle_bool (ten_pow 21) x = false).
  { rewrite Hx. reflexivity. }
  rewrite Hsmall.
  assert (Hn : nearest_scaled 2 x = 950%Z).
  { unfold nearest_scaled. rewrite Hx. reflexivity. }
  rewrite Hn. reflexivity.
Qed.

(** C8.  A product whose price is 9.5 has the price line
    <p><strong>$9.50</strong></p> in its card, and so has the list on
    the page once it is rendered.  Below 10^21, [toFixed(2)] always
    gives a point followed by two characters. *)
Theorem price_9_5_rendered
        (p : Product) (x : number)
        (Hp : p_price p = just x) (Hx : x == 19 # 2) :
  priceLine p = "<p><strong>$9.50</strong></p>" /\
  contains "<p><strong>$9.50</strong></p>" (productCard p) /\
  (forall s status products,
     status <> 401%Z -> In p products ->
     contains "<p><strong>$9.50</strong></p>"
       (productsList (dom (loadProducts_settled
                             (Response status (JsonProducts products)) s)))) /\
  (forall y : number,
     Qabs y < ten_pow 21 ->
     exists a b, toFixed 2 y = a ++ "." ++ b /\ String.length b = 2%nat).
Proof.
  assert (Hline : priceLine p = "<p><strong>$9.50</strong></p>").
  { unfold priceLine. rewrite Hp.
    assert (Ht : truthy_number x = true).
    { unfold truthy_number. rewrite Hx. reflexivity. }
    rewrite Ht, (toFixed_9_5 x Hx). reflexivity. }
  assert (Hcard : contains "<p><strong>$9.50</strong></p>" (productCard p)).
  { rewrite <- Hline. apply productCard_contains_priceLine. }
  split; [exact Hline |]. split; [exact Hcard |]. split.
  - intros s status products Hs Hin.
    rewrite loadProducts_renders; [| exact Hs |].
    + apply (contains_trans _ (productCard p)); [exact Hcard |].
      apply renderProducts_contains, Hin.
    + intro E. rewrite E in Hin. destruct Hin.
  - exact toFixed_two_places.
Qed.

Lemma price_9_5_rendered_witness :
  p_price mug = just (19 # 2) /\ 19 # 2 == 19 # 2 /\
  priceLine mug = "<p><strong>$9.50</strong></p>".
Proof.
  split; [reflexivity |]. split; [reflexivity |].
  apply (price_9_5_rendered mug (19 # 2) eq_refl (Qeq_refl (19 # 2))).
Defined.

(** C10.  The price line is left out of the card when the price is 0,
    and the description line when the description is the empty string:
    both tests are on truthiness.  The card of such a product is the
    card of the same product without a price (without a description). *)
Theorem falsy_fields_not_rendered (p : Product) :
  (forall x, p_price p = just x -> x == 0 ->
     priceLine p = EmptyString /\
     productCard p = productCard (with_price undefined p)) /\
  (p_description p = just EmptyString ->
     descriptionLine p = EmptyString /\
     productCard p = productCard (with_description undefined p)).
Proof.
  split.
  - intros x Hp Hx.
    assert (Hline : priceLine p = EmptyString).
    { unfold priceLine. rewrite Hp. unfold truthy_number.
      rewrite Hx. reflexivity. }
    split; [exact Hline |].
    unfold productCard. rewrite Hline. reflexivity.
  - intro Hd.
    assert (Hline : descriptionLine p = EmptyString).
    { unfold descriptionLine. rewrite Hd. reflexivity. }
    split; [exact Hline |].
    unfold productCard. rewrite Hline. reflexivity.
Qed.

Lemma falsy_fields_not_rendered_witness :
  (p_price gift = just 0 /\ 0 == 0 /\
   priceLine gift = EmptyString /\
   productCard gift = productCard (with_price undefined gift)) /\
  (p_description gift = just EmptyString /\
   descriptionLine gift = EmptyString /\
   productCard gift = productCard (with_description undefined gift)).
Proof.
  split.
  - split; [reflexivity |]. split; [reflexivity |].
    apply (proj1 (falsy_fields_not_rendered gift) 0 eq_refl (Qeq_refl 0)).
  - split; [reflexivity |].
    apply (proj2 (falsy_fields_not_rendered gift) eq_refl).
Defined.

(** ** Every handler at once *)

Lemma editingMug_reachable : reachable (Some "abc") blankPage editingMug.
Proof.
  unfold editingMug, editing, listed.
  do 2 apply reach_step. apply run_reachable, reach_load.
Qed.

Lemma failing_reachable : reachable (Some "abc") blankPage failing.
Proof. unfold failing. apply reach_step, reach_load. Qed.

(** Opens the handlers up to their branches. *)
Ltac handlers :=
  cbv beta iota zeta delta
      [step settle reader_settle resume loadProducts_settled
       productForm_settled editProduct_settled deleteProduct_settled
       loadConfig_settled configForm_settled tab_onclick window_onclick
       productImage_change deleteProduct openEdit].

(** Takes every branch in the goal. *)
Ltac cases :=
  repeat match goal with
         | |- context [match ?x with _ => _ end] => destruct x eqn:?
         end.

Lemma elapse_session (dt : N) (s : State) :
  authHeaders (elapse dt s) = authHeaders s /\
  effects (elapse dt s) = effects s /\ token (elapse dt s) = token s /\
  pending (elapse dt s) = pending s.
Proof.
  rewrite elapse_unfold. cbv zeta. destruct (filter _ (timers s)); repeat split.
Qed.

Lemma step_session (e : Event) (s : State) :
  authHeaders (step e s) = authHeaders s /\
  ((effects (step e s) = effects s /\ token (step e s) = token s) \/
   (effects (step e s) = Navigate "/login" :: effects s /\
    token (step e s) = None) \/
   (exists r, effects (step e s) = Fetch r :: effects s /\
              token (step e s) = token s /\
              request_credentials (authHeaders s) r)).
Proof.
  destruct e as [t | | | | onModal | file | k result | | id | id confirmed
                | | k o | dt];
    try (destruct (elapse_session dt s) as (H1 & H2 & H3 & _);
         split; [exact H1 | left; split; assumption]);
    handlers; cases; (split; [reflexivity |]);
    first [ left; split; reflexivity
          | right; left; split; reflexivity
          | right; right; eexists; split; [reflexivity |];
            split; [reflexivity |];
            first [left; reflexivity | right; reflexivity] ].
Qed.

Lemma elapse_timers (dt : N) (s : State) :
  timers (elapse dt s) =
  filter (fun d => negb (d <=? now s + dt)%N) (timers s).
Proof.
  rewrite elapse_unfold. cbv zeta.
  destruct (filter (fun d => (d <=? now s + dt)%N) (timers s)); reflexivity.
Qed.

Lemma elapse_class (dt : N) (s : State) :
  messageClass (dom (elapse dt s)) = messageClass (dom s) \/
  messageClass (dom (elapse dt s)) = "message".
Proof.
  rewrite elapse_unfold. cbv zeta.
  destruct (filter (fun d => (d <=? now s + dt)%N) (timers s));
    [left | right]; reflexivity.
Qed.

Lemma step_banner (e : Event) (s : State) :
  (exists dt, e = Elapse dt) \/
  (now (step e s) = now s /\
   ((timers (step e s) = timers s /\
     messageClass (dom (step e s)) = messageClass (dom s) /\
     messageText (dom (step e s)) = messageText (dom s)) \/
    (timers (step e s) = (timers s ++ [(now s + 4000)%N])%list /\
     styled (messageClass (dom (step e s)))))).
Proof.
  destruct e as [t | | | | onModal | file | k result | | id | id confirmed
                | | k o | dt];
    try (left; eexists; reflexivity);
    right; handlers; cases; (split; [reflexivity |]);
    first [ left; repeat split; reflexivity
          | right; split; [reflexivity |];
            first [left; reflexivity | right; reflexivity] ].
Qed.

(** ** The session over a whole run *)

Lemma reachable_requests
      (stored : option string) (page : Dom) (s : State) :
  reachable stored page s ->
  authHeaders s = "Bearer " ++ opt_toString stored /\
  forall r, In (Fetch r) (effects s) ->
    request_credentials ("Bearer " ++ opt_toString stored) r.
Proof.
  induction 1 as [| e s Hs [IH1 IH2]].
  - split.
    + unfold script_load. cbv zeta.
      destruct (truthy_opt_string stored); reflexivity.
    + intros r Hr. right. unfold script_load in Hr. cbv zeta in Hr.
      destruct (truthy_opt_string stored); simpl in Hr.
      * destruct Hr as [Hr | []]. injection Hr as <-. reflexivity.
      * destruct Hr as [Hr | [Hr | []]]; [| discriminate Hr].
        injection Hr as <-. reflexivity.
  - destruct (step_session e s) as [Ha Hcases]. split.
    + now rewrite Ha.
    + intros r Hr.
      destruct Hcases as [[He _] | [[He _] | (r' & He & _ & Hc)]];
        rewrite He in Hr.
      * apply IH2, Hr.
      * destruct Hr as [Hr | Hr]; [discriminate Hr | apply IH2, Hr].
      * destruct Hr as [Hr | Hr]; [| apply IH2, Hr].
        injection Hr as <-. rewrite <- IH1. exact Hc.
Qed.

(** X5.  The header is built once.  In every reachable state each
    request issued so far is the configuration read, which carries no
    Authorization, or carries Bearer and the token read at load; and
    this stays so after a logout has removed the token from storage. *)
Theorem requests_carry_load_time_header
        (stored : option string) (page : Dom) (s : State)
        (Hs : reachable stored page s) :
  authHeaders s = "Bearer " ++ opt_toString stored /\
  (forall r, In (Fetch r) (effects s) ->
     r = configRequest \/
     authorization r = Some ("Bearer " ++ opt_toString stored)) /\
  token (step LogoutClick s) = None /\
  authorization (listRequest (step LogoutClick s)) =
    Some ("Bearer " ++ opt_toString stored).
Proof.
  destruct (reachable_requests stored page s Hs) as [H1 H2].
  split; [exact H1 |]. split; [exact H2 |].
  split; [reflexivity |]. unfold listRequest. simpl. now rewrite H1.
Qed.

Lemma requests_carry_load_time_header_witness :
  reachable (Some "abc") blankPage editingMug /\
  authHeaders editingMug = "Bearer abc".
Proof.
  split; [exact editingMug_reachable |].
  apply (requests_carry_load_time_header (Some "abc") blankPage editingMug
                                         editingMug_reachable).
Defined.

(** X6.  The script navigates to /login and nowhere else, and once it
    has, storage holds no usable token.  The token in storage is never
    written, only removed. *)
Theorem navigation_only_to_login
        (stored : option string) (page : Dom) (s : State)
        (Hs : reachable stored page s) :
  (forall to, In (Navigate to) (effects s) ->
     to = "/login" /\ truthy_opt_string (token s) = false) /\
  (token s = stored \/ token s = None).
Proof.
  induction Hs as [| e s Hs [IH1 IH2]].
  - split.
    + intros to Hto. unfold script_load in *. cbv zeta in *.
      destruct (truthy_opt_string stored) eqn:E; simpl in Hto.
      * destruct Hto as [Hto | []]. discriminate Hto.
      * destruct Hto as [Hto | [Hto | []]]; [discriminate Hto |].
        injection Hto as <-. split; [reflexivity | exact E].
    + left. unfold script_load. cbv zeta.
      destruct (truthy_opt_string stored); reflexivity.
  - destruct (step_session e s) as [_ Hcases].
    destruct Hcases as [[He Ht] | [[He Ht] | (r & He & Ht & _)]];
      rewrite He, Ht.
    + split; assumption.
    + split; [| right; reflexivity].
      intros to [Hto | Hto].
      * injection Hto as <-. split; reflexivity.
      * split; [apply (IH1 to Hto) | reflexivity].
    + split; [| exact IH2].
      intros to [Hto | Hto]; [discriminate Hto | apply IH1, Hto].
Qed.

Lemma navigation_only_to_login_witness :
  reachable (Some "abc") blankPage (step LogoutClick editingMug) /\
  In (Navigate "/login") (effects (step LogoutClick editingMug)) /\
  truthy_opt_string (token (step LogoutClick editingMug)) = false.
Proof.
  split; [apply reach_step, editingMug_reachable |].
  split; [left; reflexivity |].
  apply (proj1 (navigation_only_to_login
                  (Some "abc") blankPage (step LogoutClick editingMug)
                  (reach_step _ _ _ _ editingMug_reachable))
               "/login").
  left. reflexivity.
Defined.

(** ** The banner over a whole run *)

(** X18.  In every reachable state each pending timeout is due in the
    future, at most 4000 ms from now. *)
Theorem timers_fire_within_4_seconds
        (stored : option string) (page : Dom) (s : State)
        (Hs : reachable stored page s) :
  forall due, In due (timers s) -> (now s < due <= now s + 4000)%N.
Proof.
  induction Hs as [| e s Hs IH].
  - intros due H. unfold script_load in H. cbv zeta in H.
    destruct (truthy_opt_string stored); destruct H.
  - destruct (step_banner e s) as [[dt ->] | [Hnow [[Ht _] | [Ht _]]]].
    + intros due H. simpl in H. rewrite elapse_timers in H.
      apply filter_In in H. destruct H as [Hin Hlate].
      apply negb_true_iff, N.leb_gt in Hlate.
      simpl. rewrite elapse_now. specialize (IH due Hin). lia.
    + intros due H. rewrite Hnow. rewrite Ht in H. apply IH, H.
    + intros due H. rewrite Hnow. rewrite Ht in H.
      apply in_app_or in H. destruct H as [H | [<- | []]].
      * apply IH, H.
      * lia.
Qed.

Lemma timers_fire_within_4_seconds_witness :
  reachable (Some "abc") blankPage failing /\
  In 4000%N (timers failing) /\
  (now failing < 4000 <= now failing + 4000)%N.
Proof.
  split; [exact failing_reachable |].
  split; [left; reflexivity |].
  apply (timers_fire_within_4_seconds (Some "abc") blankPage failing
                                      failing_reachable 4000%N).
  left. reflexivity.
Defined.

(** X19.  On a page whose banner starts with the bare class, the class
    of the banner is always one of message, message success and message
    error, and in every reachable state 4000 ms without any event bring
    it back to the bare class. *)
Theorem banner_never_outlives_4_seconds
        (stored : option string) (page : Dom) (s : State)
        (Hpage : messageClass page = "message")
        (Hs : reachable stored page s) :
  (messageClass (dom s) = "message" \/
   messageClass (dom s) = "message success" \/
   messageClass (dom s) = "message error") /\
  messageClass (dom (elapse 4000 s)) = "message".
Proof.
  assert (H : (messageClass (dom s) = "message" \/
               styled (messageClass (dom s))) /\
              (messageClass (dom s) = "message" \/
               exists due, In due (timers s) /\ (due <= now s + 4000)%N)).
  { induction Hs as [| e s Hs [IH1 IH2]].
    - unfold script_load. cbv zeta.
      destruct (truthy_opt_string stored); split; left; exact Hpage.
    - destruct (step_banner e s)
        as [[dt ->] | [Hnow [(Ht & Hc & _) | [Ht Hc]]]].
      + simpl. split.
        * destruct (elapse_class dt s) as [-> | ->];
            [exact IH1 | left; reflexivity].
        * destruct IH2 as [IH2 | (due & Hin & Hdue)].
          -- left. destruct (elapse_class dt s) as [-> | ->];
               [exact IH2 | reflexivity].
          -- destruct (N.le_gt_cases due (now s + dt)) as [Hle | Hgt].
             ++ left. apply (elapse_clears dt due); assumption.
             ++ right. exists due. split.
                ** apply elapse_keeps_timer; assumption.
                ** rewrite elapse_now. lia.
      + rewrite Hc, Hnow, Ht. split; assumption.
      + rewrite Hnow, Ht. split; [right; exact Hc |].
        right. exists (now s + 4000)%N. split; [| lia].
        apply in_or_app. right. left. reflexivity. }
  destruct H as [H1 H2]. split.
  - destruct H1 as [H1 | [H1 | H1]]; auto.
  - destruct H2 as [H2 | (due & Hin & Hdue)].
    + destruct (elapse_class 4000 s) as [-> | ->]; [exact H2 | reflexivity].
    + apply (elapse_clears 4000 due); assumption.
Qed.

Lemma banner_never_outlives_4_seconds_witness :
  messageClass blankPage = "message" /\
  reachable (Some "abc") blankPage failing /\
  messageClass (dom failing) = "message error" /\
  messageClass (dom (elapse 4000 failing)) = "message".
Proof.
  split; [reflexivity |]. split; [exact failing_reachable |].
  split; [reflexivity |].
  apply (banner_never_outlives_4_seconds (Some "abc") blankPage failing
                                         eq_refl failing_reachable).
Defined.

(** ** Requests that settle *)

Lemma remove_nth_beyond {A : Type} (k : nat) (l : list A) :
  nth_error l k = None -> remove_nth k l = l.
Proof.
  revert k. induction l as [| x l IH]; intros [| k] H; simpl in *;
    try reflexivity; try discriminate.
  now rewrite IH.
Qed.

(** X8.  A request that fails in transport leaves its error notification
    and nothing else: the token, the effects, [currentEditId], the
    modal, the form, the list and the configuration form are what they
    were, and the request is off the in-flight list. *)
Theorem network_error_only_reported
        (s : State) (k : nat) (p : Pending)
        (Hk : nth_error (pending s) k = Some p) :
  let s' := step (Settle k NetworkError) s in
  messageText (dom s') = errorText p /\
  messageClass (dom s') = "message error" /\
  effects s' = effects s /\ token s' = token s /\
  pending s' = remove_nth k (pending s) /\
  currentEditId s' = currentEditId s /\
  modalActive (dom s') = modalActive (dom s) /\
  form (dom s') = form (dom s) /\
  productsList (dom s') = productsList (dom s) /\
  configForm (dom s') = configForm (dom s).
Proof.
  cbv zeta. simpl. unfold settle. rewrite Hk.
  destruct p; repeat split.
Qed.

Lemma network_error_only_reported_witness :
  nth_error (pending editing) 0 = Some (PendEdit 7) /\
  messageText (dom (step (Settle 0 NetworkError) editing))
  = "Error al cargar producto".
Proof.
  split; [reflexivity |].
  apply (network_error_only_reported editing 0 (PendEdit 7) eq_refl).
Defined.

(** X7.  A settled request causes at most one thing: nothing, the
    navigation to /login, or the reload of the list (which is then in
    flight).  A request that failed, by a network error or a status that
    is not ok, never causes a request: nothing is retried. *)
Theorem settled_request_effects (s : State) (k : nat) (o : Outcome) :
  let s' := step (Settle k o) s in
  (effects s' = effects s \/
   effects s' = Navigate "/login" :: effects s \/
   (effects s' = Fetch (listRequest s) :: effects s /\
    pending s' = (remove_nth k (pending s) ++ [PendLoadProducts])%list)) /\
  (failed o = true ->
   (effects s' = effects s \/ effects s' = Navigate "/login" :: effects s) /\
   pending s' = remove_nth k (pending s)).
Proof.
  cbv zeta. simpl. unfold settle.
  destruct (nth_error (pending s) k) as [p |] eqn:Hk.
  - destruct p as [| | id | | |]; destruct o as [| status body];
      unfold failed; handlers; cases;
      (split; [| intro Hf; simpl in Hf; try discriminate Hf; split]);
      first [ reflexivity
            | left; reflexivity
            | right; reflexivity
            | right; left; reflexivity
            | right; right; split; reflexivity ].
  - split; [left; reflexivity |].
    intros _. split; [left; reflexivity |].
    symmetry. apply remove_nth_beyond, Hk.
Qed.

(** X9.  After a save that failed the modal is as it was, the form and
    [currentEditId] keep their values, so that submitting again sends
    the same request, and the list on the page is not touched. *)
Theorem failed_save_keeps_dialog
        (s : State) (k : nat) (o : Outcome)
        (Hk : nth_error (pending s) k = Some PendSave)
        (Hfail : failed o = true) :
  let s' := step (Settle k o) s in
  modalActive (dom s') = modalActive (dom s) /\
  form (dom s') = form (dom s) /\
  currentEditId s' = currentEditId s /\
  saveRequest s' = saveRequest s /\
  messageClass (dom s') = "message error" /\
  productsList (dom s') = productsList (dom s).
Proof.
  cbv zeta. simpl. unfold settle. rewrite Hk.
  destruct o as [| status body]; simpl in *.
  - repeat split.
  - apply negb_true_iff in Hfail. rewrite Hfail.
    destruct body; repeat split.
Qed.

Lemma failed_save_keeps_dialog_witness :
  nth_error (pending saving) 0 = Some PendSave /\
  failed (Response 409 (JsonError (just "name taken"))) = true /\
  modalActive
    (dom (step (Settle 0 (Response 409 (JsonError (just "name taken"))))
               saving))
  = modalActive (dom saving).
Proof.
  split; [reflexivity |]. split; [reflexivity |].
  apply (failed_save_keeps_dialog
           saving 0 (Response 409 (JsonError (just "name taken")))
           eq_refl eq_refl).
Defined.

(** X10.  A save answered with an ok status, whatever its body: the
    success notification is shown, the modal is closed and the list is
    asked for again.  The form keeps its contents and [currentEditId]
    its value. *)
Theorem successful_save
        (s : State) (k : nat) (status : Z) (body : Body)
        (Hk : nth_error (pending s) k = Some PendSave)
        (Hok : ok status = true) :
  let s' := step (Settle k (Response status body)) s in
  messageText (dom s') = "Producto guardado exitosamente" /\
  messageClass (dom s') = "message success" /\
  modalActive (dom s') = false /\
  effects s' = Fetch (listRequest s) :: effects s /\
  pending s' = (remove_nth k (pending s) ++ [PendLoadProducts])%list /\
  currentEditId s' = currentEditId s /\
  form (dom s') = form (dom s) /\
  productsList (dom s') = productsList (dom s).
Proof.
  cbv zeta. simpl. unfold settle. rewrite Hk. simpl. rewrite Hok.
  repeat split.
Qed.

Lemma successful_save_witness :
  nth_error (pending saving) 0 = Some PendSave /\
  ok 201 = true /\
  modalActive (dom (step (Settle 0 (Response 201 NoJson)) saving)) = false.
Proof.
  split; [reflexivity |]. split; [reflexivity |].
  apply (successful_save saving 0 201 NoJson eq_refl eq_refl).
Defined.

(** X11.  Opening the edit dialog of a product and submitting the form
    untouched sends the product back: PUT to its own URL with its name,
    its description or the empty string, its price as ToString prints it
    or the empty string, and the file that was in the image input before
    the dialog opened, if there was one.  A product whose id is 0 is
    POSTed as a new product instead. *)
Theorem edit_then_save
        (s : State) (k : nat) (id status : Z)
        (products : list Product) (product : Product)
        (Hk : nth_error (pending s) k = Some (PendEdit id))
        (Hf : findProduct id products = Some product) :
  let s' := step (Settle k (Response status (JsonProducts products))) s in
  effects (step FormSubmit s') =
    Fetch {| method := if (id =? 0)%Z then "POST" else "PUT";
             url := if (id =? 0)%Z then "/api/products"
                    else "/api/products/" ++ int_toString id;
             authorization := Some (authHeaders s);
             contentType := None;
             payload := FormData
               ([("name", Text (p_name product));
                 ("description",
                  Text (or_else (p_description product) EmptyString));
                 ("price", Text (priceValue product))] ++
                match productImage (form (dom s)) with
                | Some file => [("image", Blob file)]
                | None => []
                end) |} :: effects s.
Proof.
  cbv zeta.
  assert (Hs : step (Settle k (Response status (JsonProducts products))) s =
               openEdit id product
                 (set_pending (remove_nth k (pending s)) s)).
  { simpl. unfold settle. rewrite Hk. simpl. rewrite Hf. reflexivity. }
  rewrite Hs.
  set (s1 := openEdit id product (set_pending (remove_nth k (pending s)) s)).
  destruct (openEdit_form id product
              (set_pending (remove_nth k (pending s)) s)) as (Hform & _ & _).
  destruct (openEdit_dialog id product
              (set_pending (remove_nth k (pending s)) s)) as (Hcur & _ & _).
  fold s1 in Hform, Hcur.
  assert (He : effects s1 = effects s /\ authHeaders s1 = authHeaders s).
  { subst s1. unfold openEdit. cbv zeta.
    destruct (truthy_maybe _ _); split; reflexivity. }
  destruct He as [He Ha].
  change (effects (step FormSubmit s1))
    with (Fetch (saveRequest s1) :: effects s1).
  rewrite He. f_equal. f_equal.
  unfold saveRequest. rewrite Hcur, Hform, Ha.
  unfold saveTarget, truthy_int, productFormData. simpl.
  assert (Hp : (if truthy_string (priceValue product)
                then priceValue product else EmptyString)
               = priceValue product).
  { destruct (priceValue product); reflexivity. }
  rewrite Hp. destruct (id =? 0)%Z; reflexivity.
Qed.

Lemma edit_then_save_witness :
  nth_error (pending editing) 0 = Some (PendEdit 7) /\
  findProduct 7 [mug; gift] = Some mug /\
  hd_error (effects (step FormSubmit editingMug)) =
    Some (Fetch {| method := "PUT"; url := "/api/products/7";
                   authorization := Some "Bearer abc"; contentType := None;
                   payload := FormData
                     [("name", Text "Taza");
                      ("description", Text "Taza de barro");
                      ("price", Text "9.5")] |}).
Proof.
  split; [reflexivity |]. split; [reflexivity |].
  unfold editingMug.
  rewrite (edit_then_save editing 0 7 200 [mug; gift] mug eq_refl eq_refl).
  reflexivity.
Defined.

(** X12.  Nothing cancels a request.  When the answer to an earlier
    [editProduct] arrives after the add button was clicked, the create
    dialog turns into the edit dialog of that product. *)
Theorem late_edit_overrides_create
        (s : State) (k : nat) (id status : Z)
        (products : list Product) (product : Product)
        (Hk : nth_error (pending s) k = Some (PendEdit id))
        (Hf : findProduct id products = Some product) :
  let s' := step (Settle k (Response status (JsonProducts products)))
                 (step AddClick s) in
  currentEditId (step AddClick s) = None /\
  currentEditId s' = Some id /\
  modalTitle (dom s') = "Editar Producto" /\
  imageRequired (dom s') = false /\
  productName (form (dom s')) = p_name product /\
  modalActive (dom s') = true.
Proof.
  cbv zeta. split; [reflexivity |].
  assert (Hs : step (Settle k (Response status (JsonProducts products)))
                 (step AddClick s) =
               openEdit id product
                 (set_pending (remove_nth k (pending s)) (step AddClick s))).
  { simpl. unfold settle. simpl. rewrite Hk. simpl. rewrite Hf. reflexivity. }
  rewrite Hs.
  destruct (openEdit_form id product
              (set_pending (remove_nth k (pending s)) (step AddClick s)))
    as (Hform & _ & Hreq).
  destruct (openEdit_dialog id product
              (set_pending (remove_nth k (pending s)) (step AddClick s)))
    as (Hcur & Htitle & Hact).
  rewrite Hform. repeat split; assumption.
Qed.

Lemma late_edit_overrides_create_witness :
  nth_error (pending editing) 0 = Some (PendEdit 7) /\
  findProduct 7 [mug; gift] = Some mug /\
  currentEditId
    (step (Settle 0 (Response 200 (JsonProducts [mug; gift])))
          (step AddClick editing)) = Some 7%Z.
Proof.
  split; [reflexivity |]. split; [reflexivity |].
  apply (late_edit_overrides_create editing 0 7 200 [mug; gift] mug
                                    eq_refl eq_refl).
Defined.

(** X15.  Loading the configuration and saving it untouched PUTs what
    was loaded, as JSON and with the bearer header; a WhatsApp number
    that is missing or null is sent as the empty string.  The load looks
    at no status and shows no notification. *)
Theorem config_load_then_save
        (s : State) (k : nat) (status : Z) (a b c : string)
        (w : maybe string)
        (Hk : nth_error (pending s) k = Some PendLoadConfig) :
  let s' := step (Settle k (Response status (JsonConfig
              {| primary_color := just a; background_color := just b;
                 product_bg_color := just c; whatsapp_number := w |}))) s in
  effects (step ConfigSubmit s') =
    Fetch {| method := "PUT"; url := "/api/config";
             authorization := Some (authHeaders s);
             contentType := Some "application/json";
             payload := JsonBody
               {| primaryColor := a; backgroundColor := b;
                  productBgColor := c;
                  whatsappNumber := or_else w EmptyString |} |}
    :: effects s /\
  messageText (dom s') = messageText (dom s) /\
  timers s' = timers s.
Proof.
  cbv zeta. simpl. unfold settle. rewrite Hk. repeat split.
Qed.

Lemma config_load_then_save_witness :
  nth_error (pending configuring) 0 = Some PendLoadConfig /\
  hd_error
    (effects
       (step ConfigSubmit
          (step (Settle 0 (Response 200 (JsonConfig
                   {| primary_color := just "#112233";
                      background_color := just "#ffffff";
                      product_bg_color := just "#eeeeee";
                      whatsapp_number := null |}))) configuring))) =
    Some (Fetch {| method := "PUT"; url := "/api/config";
                   authorization := Some "Bearer abc";
                   contentType := Some "application/json";
                   payload := JsonBody
                     {| primaryColor := "#112233";
                        backgroundColor := "#ffffff";
                        productBgColor := "#eeeeee";
                        whatsappNumber := EmptyString |} |}).
Proof.
  split; [reflexivity |].
  rewrite (proj1 (config_load_then_save configuring 0 200
                    "#112233" "#ffffff" "#eeeeee" null eq_refl)).
  reflexivity.
Defined.

(** X13.  In every reachable state, the add button followed by a submit
    POSTs to /api/products the values the template gave the form, with
    no image, whatever was edited or picked before. *)
Theorem create_dialog_posts_defaults
        (stored : option string) (page : Dom) (s : State)
        (Hs : reachable stored page s) :
  effects (step FormSubmit (step AddClick s)) =
    Fetch {| method := "POST"; url := "/api/products";
             authorization := Some ("Bearer " ++ opt_toString stored);
             contentType := None;
             payload := FormData
               [("name", Text (productName (form page)));
                ("description", Text (productDescription (form page)));
                ("price", Text (productPrice (form page)))] |}
    :: effects s.
Proof.
  destruct (reachable_requests stored page s Hs) as (Ha & _).
  pose proof (reachable_formDefaults stored page s Hs) as Hd.
  simpl. unfold productForm_submit, fetch, saveRequest. simpl.
  rewrite Ha, Hd. unfold productFormData, reset. simpl.
  destruct (productPrice (form page)); reflexivity.
Qed.

Lemma create_dialog_posts_defaults_witness :
  reachable (Some "abc") blankPage editingMug /\
  hd_error (effects (step FormSubmit (step AddClick editingMug))) =
    Some (Fetch {| method := "POST"; url := "/api/products";
                   authorization := Some "Bearer abc"; contentType := None;
                   payload := FormData
                     [("name", Text EmptyString);
                      ("description", Text EmptyString);
                      ("price", Text EmptyString)] |}).
Proof.
  split; [exact editingMug_reachable |].
  rewrite (create_dialog_posts_defaults (Some "abc") blankPage editingMug
                                        editingMug_reachable).
  reflexivity.
Defined.

(** ** Prices *)

Lemma substring_split (m : string) (k j : nat) :
  (k + j = String.length m)%nat ->
  substring 0 k m ++ substring k j m = m.
Proof.
  revert k j. induction m as [| c m IH]; intros k j H; simpl in *.
  - destruct k, j; simpl in *; try reflexivity; lia.
  - destruct k as [| k]; simpl.
    + destruct j as [| j]; [lia |]. simpl. f_equal.
      specialize (IH 0%nat j). simpl in IH.
      assert (E : substring 0 0 m = EmptyString) by (destruct m; reflexivity).
      rewrite E in IH. simpl in IH. apply IH. lia.
    + f_equal. apply IH. lia.
Qed.

(** X21.  For a price from 0 up to 10^21, [toFixed(2)] prints the integer
    nearest to a hundred times the price, the larger one on a tie: its
    digits, padded with zeros to three, with the point before the last
    two. *)
Theorem toFixed_rounds_half_up (x : number)
        (Hpos : 0 <= x) (Hsmall : x < ten_pow 21) :
  let n := nearest_scaled 2 x in
  (inject_Z n <= 100 * x + (1 # 2) /\ 100 * x + (1 # 2) < inject_Z n + 1) /\
  exists a b,
    toFixed 2 x = a ++ "." ++ b /\ String.length b = 2%nat /\
    a ++ b = zeros (3 - String.length (decimal n)) ++ decimal n.
Proof.
  cbv zeta. split.
  - unfold nearest_scaled.
    assert (E : x * ten_pow (Z.of_nat 2) + (1 # 2) == 100 * x + (1 # 2)).
    { unfold ten_pow. simpl. ring. }
    rewrite (Qfloor_comp _ _ E). split.
    + apply Qfloor_le.
    + change 1 with (inject_Z 1). rewrite <- inject_Z_plus. apply Qlt_floor.
  - assert (Hneg : is_negative x = false).
    { unfold is_negative. apply negb_false_iff, Qle_bool_iff, Hpos. }
    unfold toFixed. cbv zeta. rewrite Hneg.
    assert (H : Qle_bool (ten_pow 21) x = false).
    { destruct (Qle_bool _ _) eqn:E; [| reflexivity].
      apply Qle_bool_iff in E. exfalso. exact (Qlt_not_le _ _ Hsmall E). }
    rewrite H. simpl. unfold place_point.
    set (d := decimal (nearest_scaled 2 x)).
    destruct (String.length d <=? 2)%nat eqn:E.
    + apply Nat.leb_le in E.
      set (m := zeros (2 + 1 - String.length d) ++ d).
      assert (Hm : String.length m = 3%nat).
      { subst m. rewrite length_append, length_zeros. lia. }
      exists (substring 0 (String.length m - 2) m),
             (substring (String.length m - 2) 2 m).
      split; [reflexivity |]. split; [apply length_substring; lia |].
      rewrite substring_split by lia. reflexivity.
    + apply Nat.leb_gt in E.
      exists (substring 0 (String.length d - 2) d),
             (substring (String.length d - 2) 2 d).
      split; [reflexivity |]. split; [apply length_substring; lia |].
      rewrite substring_split by lia.
      destruct (String.length d) as [| [| [| n]]]; try lia. reflexivity.
Qed.

Lemma toFixed_rounds_half_up_witness :
  0 <= 5 # 1000 /\ 5 # 1000 < ten_pow 21 /\
  inject_Z (nearest_scaled 2 (5 # 1000)) <= 100 * (5 # 1000) + (1 # 2).
Proof.
  assert (H0 : 0 <= 5 # 1000) by discriminate.
  assert (H1 : 5 # 1000 < ten_pow 21) by reflexivity.
  split; [exact H0 |]. split; [exact H1 |].
  apply (toFixed_rounds_half_up (5 # 1000) H0 H1).
Defined.

(** ** The list on the page *)

Lemma productCard_starts_with_newline (p : Product) :
  exists rest, productCard p = String (ascii_of_nat 10) rest.
Proof. unfold productCard. eexists. reflexivity. Qed.

(** X1.  Whatever the status, 401 apart, the list panel shows the
    placeholder exactly when the array is empty.  An empty list shows no
    notification and issues nothing; a list that is not empty shows its
    cards. *)
Theorem placeholder_iff_empty
        (s : State) (status : Z) (products : list Product)
        (Hstatus : status <> 401%Z) :
  let s' := loadProducts_settled (Response status (JsonProducts products)) s in
  (productsList (dom s') = noProducts <-> products = []) /\
  (products = [] -> timers s' = timers s /\ effects s' = effects s) /\
  (products <> [] -> productsList (dom s') = renderProducts products).
Proof.
  cbv zeta. unfold loadProducts_settled.
  apply Z.eqb_neq in Hstatus. rewrite Hstatus.
  destruct products as [| p products].
  - repeat split; intros; try reflexivity. congruence.
  - split; [| split; [intro H; discriminate H | intros _; reflexivity]].
    split; [| intro H; discriminate H].
    intro H. exfalso. simpl in H. unfold renderProducts in H.
    rewrite map_cons, concat_empty_cons in H.
    destruct (productCard_starts_with_newline p) as (rest & Hp).
    rewrite Hp in H. discriminate H.
Qed.

Lemma placeholder_iff_empty_witness :
  200%Z <> 401%Z /\
  productsList
    (dom (loadProducts_settled (Response 200 (JsonProducts [])) listed))
  = noProducts.
Proof.
  assert (H : 200%Z <> 401%Z) by discriminate.
  split; [exact H |].
  apply (proj2 (proj1 (placeholder_iff_empty listed 200 [] H))).
  reflexivity.
Defined.

Lemma productCard_contains_name (p : Product) :
  contains ("<h4>" ++ p_name p ++ "</h4>") (productCard p).
Proof.
  unfold productCard.
  do 4 apply contains_append_l. apply contains_append_r.
  unfold line. apply contains_append_l, contains_append_r, contains_refl.
Qed.

Lemma productCard_contains_description (p : Product) :
  contains (descriptionLine p) (productCard p).
Proof.
  unfold productCard.
  do 5 apply contains_append_l. apply contains_append_r.
  unfold line. apply contains_append_l, contains_append_r, contains_refl.
Qed.

(** X22.  Names and descriptions are spliced into the markup as they
    are: for every product of a rendered list, the page holds its name
    between the h4 tags and its description, when not empty, between
    the p tags, whatever characters they contain. *)
Theorem names_reach_the_page_verbatim
        (s : State) (status : Z) (products : list Product) (p : Product)
        (Hstatus : status <> 401%Z) (Hin : In p products) :
  let html := productsList
                (dom (loadProducts_settled
                        (Response status (JsonProducts products)) s)) in
  contains ("<h4>" ++ p_name p ++ "</h4>") html /\
  (forall d, p_description p = just d -> d <> EmptyString ->
     contains ("<p>" ++ d ++ "</p>") html).
Proof.
  cbv zeta. rewrite loadProducts_renders; [| exact Hstatus |].
  - assert (Hcard : contains (productCard p) (renderProducts products))
      by (apply renderProducts_contains, Hin).
    split.
    + apply (contains_trans _ (productCard p));
        [apply productCard_contains_name | exact Hcard].
    + intros d Hd Hne.
      apply (contains_trans _ (productCard p)); [| exact Hcard].
      pose proof (productCard_contains_description p) as H.
      unfold descriptionLine in H. rewrite Hd in H.
      destruct d; [contradiction | exact H].
  - intro E. rewrite E in Hin. destruct Hin.
Qed.

Lemma names_reach_the_page_verbatim_witness :
  200%Z <> 401%Z /\ In mug [mug; gift] /\
  contains "<h4>Taza</h4>"
    (productsList
       (dom (loadProducts_settled
               (Response 200 (JsonProducts [mug; gift])) listed))).
Proof.
  assert (H : 200%Z <> 401%Z) by discriminate.
  assert (Hin : In mug [mug; gift]) by (left; reflexivity).
  split; [exact H |]. split; [exact Hin |].
  apply (names_reach_the_page_verbatim listed 200 [mug; gift] mug H Hin).
Defined.

(** X23.  The cards follow the order of the list: the markup of two
    lists one after the other is the markup of the first followed by
    that of the second. *)
Theorem renderProducts_app (a b : list Product) :
  renderProducts (a ++ b) = renderProducts a ++ renderProducts b.
Proof.
  unfold renderProducts. induction a as [| p a IH].
  - reflexivity.
  - rewrite <- app_comm_cons, !map_cons, !concat_empty_cons, IH.
    now rewrite append_assoc.
Qed.

(** ** The preview, deleting, the tabs *)

(** X17.  The preview shows the file whose read finished last, not the
    file that is selected: when a second file is picked while the first
    is still being read and the second read finishes first, the form
    holds the second file and the preview shows the first. *)
Theorem preview_shows_last_finished_read
        (s : State) (f1 f2 : File) (r1 r2 : string) :
  let n := length (reading s) in
  let s' := run [ImageChange (Some f1); ImageChange (Some f2);
                 ReaderLoad (S n) r2; ReaderLoad n r1] s in
  productImage (form (dom s')) = Some f2 /\
  previewSrc (dom s') = r1 /\
  previewDisplay (dom s') = "block" /\
  reading s' = reading s.
Proof.
  cbv zeta.
  change (run [ImageChange (Some f1); ImageChange (Some f2);
               ReaderLoad (S (length (reading s))) r2;
               ReaderLoad (length (reading s)) r1] s)
    with (reader_settle (length (reading s)) r1
            (reader_settle (S (length (reading s))) r2
               (productImage_change (Some f2)
                  (productImage_change (Some f1) s)))).
  set (s2 := productImage_change (Some f2) (productImage_change (Some f1) s)).
  assert (R2 : reading s2 = ((reading s ++ [f1]) ++ [f2])%list)
    by reflexivity.
  assert (L : S (length (reading s)) = length (reading s ++ [f1]))
    by (rewrite length_app; simpl; lia).
  assert (E3 : reader_settle (S (length (reading s))) r2 s2 =
               reader_onload r2 (set_reading (reading s ++ [f1]) s2)).
  { unfold reader_settle. rewrite R2, L.
    rewrite nth_error_app_last, remove_nth_app_last. reflexivity. }
  rewrite E3.
  set (s3 := reader_onload r2 (set_reading (reading s ++ [f1]) s2)).
  assert (R3 : reading s3 = (reading s ++ [f1])%list) by reflexivity.
  assert (E4 : reader_settle (length (reading s)) r1 s3 =
               reader_onload r1 (set_reading (reading s) s3)).
  { unfold reader_settle. rewrite R3.
    rewrite nth_error_app_last, remove_nth_app_last. reflexivity. }
  rewrite E4. repeat split.
Qed.



(** ** The list request *)

(** X2.  A body that is not an array of products (not JSON, or an object
    such as an error or a configuration) ends in the [catch] of the
    function that asked for the list.  [loadProducts], when the status
    is not 401 (a 401 is dealt with before the body is read), shows
    Error al cargar productos and leaves the list on the page as it was;
    [editProduct], whatever the status, shows Error al cargar producto
    and leaves the dialog, the form and [currentEditId] as they were.
    In these cases neither touches the token or navigates. *)
Theorem unusable_list_body_is_reported
        (s : State) (status : Z) (body : Body)
        (Hbody : is_product_list body = false) :
  (status <> 401%Z ->
   let s' := loadProducts_settled (Response status body) s in
   messageText (dom s') = "Error al cargar productos" /\
   messageClass (dom s') = "message error" /\
   productsList (dom s') = productsList (dom s) /\
   token s' = token s /\ effects s' = effects s) /\
  (forall id,
     let s' := editProduct_settled id (Response status body) s in
     messageText (dom s') = "Error al cargar producto" /\
     messageClass (dom s') = "message error" /\
     modalActive (dom s') = modalActive (dom s) /\
     form (dom s') = form (dom s) /\
     currentEditId s' = currentEditId s /\
     token s' = token s /\ effects s' = effects s).
Proof.
  split.
  - intro Hstatus. cbv zeta. unfold loadProducts_settled.
    apply Z.eqb_neq in Hstatus. rewrite Hstatus.
    destruct body; try discriminate Hbody; repeat split.
  - intro id. cbv zeta. unfold editProduct_settled.
    destruct body; try discriminate Hbody; repeat split.
Qed.

Lemma unusable_list_body_is_reported_witness :
  is_product_list (JsonError (just "Internal Server Error")) = false /\
  messageText
    (dom (editProduct_settled 7
            (Response 500 (JsonError (just "Internal Server Error")))
            editing))
  = "Error al cargar producto".
Proof.
  split; [reflexivity |].
  apply (proj2 (unusable_list_body_is_reported editing 500
                  (JsonError (just "Internal Server Error")) eq_refl) 7%Z).
Defined.

(** X3.  When the list request is answered 401 the token is removed and
    the browser is sent to /login without the body being read: the page
    is as it was, with no notification and no timeout. *)
Theorem list_answered_401
        (s : State) (k : nat) (body : Body)
        (Hk : nth_error (pending s) k = Some PendLoadProducts) :
  let s' := step (Settle k (Response 401 body)) s in
  token s' = None /\
  effects s' = Navigate "/login" :: effects s /\
  dom s' = dom s /\ timers s' = timers s /\
  pending s' = remove_nth k (pending s).
Proof.
  cbv zeta. simpl. unfold settle. rewrite Hk. repeat split.
Qed.

Lemma list_answered_401_witness :
  nth_error (pending (script_load (Some "abc") blankPage)) 0
    = Some PendLoadProducts /\
  token (step (Settle 0 (Response 401 NoJson))
              (script_load (Some "abc") blankPage)) = None.
Proof.
  split; [reflexivity |].
  apply (list_answered_401 (script_load (Some "abc") blankPage) 0 NoJson
                           eq_refl).
Defined.

(** X4.  With a token that is not empty the script issues the list
    request with Authorization: Bearer and the token, and does not
    navigate; the page is as the template delivered it.  The empty
    string counts as no token: the script redirects, the item stays in
    storage, and the request still goes out, with a header that ends
    after Bearer and a space. *)
Theorem script_load_by_token (page : Dom) (t : string) :
  (t <> EmptyString ->
   trace (script_load (Some t) page) =
     [Fetch {| method := "GET"; url := "/api/products";
               authorization := Some ("Bearer " ++ t);
               contentType := None; payload := NoPayload |}]) /\
  trace (script_load (Some EmptyString) page) =
    [Navigate "/login";
     Fetch {| method := "GET"; url := "/api/products";
              authorization := Some "Bearer ";
              contentType := None; payload := NoPayload |}] /\
  token (script_load (Some EmptyString) page) = Some EmptyString /\
  dom (script_load (Some t) page) = page /\
  currentEditId (script_load (Some t) page) = None.
Proof.
  split; [| split; [reflexivity | split; [reflexivity |]]].
  - intro Ht. destruct t; [contradiction | reflexivity].
  - destruct t; split; reflexivity.
Qed.

(** X16.  A click on a tab leaves that tab alone active and asks for its
    data: the product list with the bearer header, the configuration
    with no Authorization.  Nothing is cached: a second click asks
    again.  The dialog is not affected. *)
Theorem tab_click_always_fetches (t : Tab) (s : State) :
  let r := match t with
           | TabProducts => listRequest s
           | TabConfig => configRequest
           end in
  activeTabs (dom (step (TabClick t) s)) = [t] /\
  effects (step (TabClick t) s) = Fetch r :: effects s /\
  effects (step (TabClick t) (step (TabClick t) s)) =
    Fetch r :: Fetch r :: effects s /\
  authorization configRequest = None /\
  authorization (listRequest s) = Some (authHeaders s) /\
  modalActive (dom (step (TabClick t) s)) = modalActive (dom s) /\
  currentEditId (step (TabClick t) s) = currentEditId s.
Proof. destruct t; repeat split. Qed.
